(** * The live-subtitle relay server

    A shallow embedding of [src/backend/server.js]: the session store
    ([activeSessions], a JavaScript [Map]), the message router
    ([handleWebSocketMessage]), the broadcaster ([broadcastSubtitle]), the
    connection gateway (the [wss.on('connection')] callback with its three
    listeners) and the [/api/health] query.

    Handlers are written in a small monad that threads the server state and
    lets an exception escape with the state reached so far, as a JavaScript
    [throw] does.  Everything the server obtains from its runtime (the
    clock, random tokens, the result of decoding a frame, whether a
    [ws.send] throws) is read from a [runtime] record. *)

From Stdlib Require Import String Ascii ZArith List Bool Arith Lia DecimalString.
Import ListNotations.
Local Open Scope list_scope.
Local Open Scope string_scope.
Local Set Warnings "-register-all".

(** ** JavaScript values *)

Module JS.

(** Values that [JSON.parse] can produce.  Numbers are the integer-valued
    ones (timestamps are integral milliseconds); a number with a fraction
    is not a value of the model.  The runtime computes with doubles: on
    integers of magnitude up to 2^53 (see [safe_integer]) its subtraction
    and its printing are those of the integers, and beyond them they are
    read from the [runtime]. *)
Inductive json : Type :=
| JNull
| JBool (b : bool)
| JNum (n : Z)
| JStr (s : string)
| JArr (items : list json)
| JObj (fields : list (string * json)).

(** The result of reading a property: [None] is [undefined]. *)
Definition value : Type := option json.

(** The result of an arithmetic operation. *)
Inductive number : Type :=
| Num (z : Z)
| NaN.

Inductive exn : Type :=
| TypeError
| SyntaxError
| SendError.

(** Insertion-ordered keyed collections.  A [Map] and the own properties of
    an object both keep their entries in insertion order, and writing an
    existing key replaces the value where the key already stands. *)
Section Ordered.
Context {V : Type}.

Fixpoint get (k : string) (m : list (string * V)) : option V :=
  match m with
  | [] => None
  | (k', v) :: rest => if String.eqb k' k then Some v else get k rest
  end.

Fixpoint set (k : string) (v : V) (m : list (string * V)) : list (string * V) :=
  match m with
  | [] => [(k, v)]
  | (k', v') :: rest =>
      if String.eqb k' k then (k', v) :: rest else (k', v') :: set k v rest
  end.

Fixpoint delete (k : string) (m : list (string * V)) : list (string * V) :=
  match m with
  | [] => []
  | (k', v) :: rest =>
      if String.eqb k' k then delete k rest else (k', v) :: delete k rest
  end.

Definition keys (m : list (string * V)) : list string := map fst m.
End Ordered.

(** [v ? a : b] and [v || d] test this. *)
Definition truthy (v : value) : bool :=
  match v with
  | None => false
  | Some JNull => false
  | Some (JBool b) => b
  | Some (JNum n) => negb (Z.eqb n 0)
  | Some (JStr s) => negb (String.eqb s "")
  | Some (JArr _) => true
  | Some (JObj _) => true
  end.

(** [a || d] where [d] is a JSON value. *)
Definition or_default (a : value) (d : json) : json :=
  match a with
  | Some v => if truthy a then v else d
  | None => d
  end.

(** [v === 'literal'] *)
Definition strict_eq_string (v : value) (literal : string) : bool :=
  match v with
  | Some (JStr s) => String.eqb s literal
  | _ => false
  end.

Definition string_of_Z (n : Z) : string := NilZero.string_of_int (Z.to_int n).
Definition string_of_nat (n : nat) : string := NilZero.string_of_uint (Nat.to_uint n).

(** The integers on which double arithmetic is exact. *)
Definition safe_integer (n : Z) : bool := (Z.abs n <=? 2 ^ 53)%Z.

(** [v.k] for the property names the server reads ([type], [language],
    [timestamp]): none of them is inherited from a prototype, so only an
    object's own properties can supply one.  Reading a property of [null]
    throws. *)
Definition get_property (v : json) (k : string) : exn + value :=
  match v with
  | JNull => inl TypeError
  | JObj fields => inr (get k fields)
  | _ => inr None
  end.

Fixpoint indexed (i : nat) (l : list json) : list (string * json) :=
  match l with
  | [] => []
  | x :: rest => (string_of_nat i, x) :: indexed (S i) rest
  end.

Fixpoint code_units (s : string) : list json :=
  match s with
  | EmptyString => []
  | String c rest => JStr (String c EmptyString) :: code_units rest
  end.

(** The own enumerable properties that [{...v}] copies, in order. *)
Definition spread (v : json) : list (string * json) :=
  match v with
  | JObj fields => fields
  | JArr items => indexed 0 items
  | JStr s => indexed 0 (code_units s)
  | _ => []
  end.

(** [JSON.stringify] writes [NaN] as [null]. *)
Definition json_of_number (n : number) : json :=
  match n with
  | Num z => JNum z
  | NaN => JNull
  end.

End JS.
Import JS.

(** ** The runtime the server runs on

    Each reading is indexed by the number of runtime calls made before it,
    so any behaviour of the clock, of the random generator and of the
    sockets is one choice of these functions. *)
Record runtime : Type := {
  JSON_parse : string -> option json;      (* [None]: throws SyntaxError *)
  StringToNumber : string -> number;       (* the numeric value of a string *)
  Number_toString : Z -> string;           (* how a double beyond 2^53 prints *)
  double_sub : Z -> Z -> number;           (* [a - b] when not exact on integers *)
  clock : nat -> Z;                        (* what [Date.now()] returns *)
  random_token : nat -> string;            (* what [generateSessionId()] builds *)
  send_throws : nat -> bool;               (* whether [ws.send] throws *)
  uptime : nat -> json                     (* what [process.uptime()] returns *)
}.

(** ** Server state *)

Definition socket : Type := nat.

Record Session : Type := {
  ws : socket;
  startTime : Z;
  language : json;
  isActive : bool
}.

Inductive effect : Type :=
| ws_send (to : socket) (msg : json) (delivered : bool)
| ws_close (sock : socket)
| console_log (text : string)
| console_error (text : string)
| res_json (body : json)
| server_close.

Record world : Type := {
  activeSessions : list (string * Session);
  calls : nat;
  trace : list effect
}.

Definition initial : world :=
  {| activeSessions := []; calls := 0; trace := [] |}.

(** ** The handler monad *)

Inductive outcome (A : Type) : Type :=
| Returned (a : A)
| Thrown (e : exn).
Arguments Returned {A} a.
Arguments Thrown {A} e.

Definition M (A : Type) : Type := world -> outcome A * world.

Definition ret {A} (a : A) : M A := fun w => (Returned a, w).

Definition bind {A B} (c : M A) (k : A -> M B) : M B :=
  fun w =>
    match c w with
    | (Returned a, w') => k a w'
    | (Thrown e, w') => (Thrown e, w')
    end.

Definition throw {A} (e : exn) : M A := fun w => (Thrown e, w).

Definition try_catch {A} (body : M A) (handler : exn -> M A) : M A :=
  fun w =>
    match body w with
    | (Returned a, w') => (Returned a, w')
    | (Thrown e, w') => handler e w'
    end.

Declare Scope js_scope.
Delimit Scope js_scope with js.
Notation "x <- c ;; k" := (bind c (fun x => k))
  (at level 61, c at next level, right associativity) : js_scope.
Notation "c ;; k" := (bind c (fun _ => k))
  (at level 61, right associativity) : js_scope.
Local Open Scope js_scope.

Definition lift {A} (r : exn + A) : M A :=
  match r with
  | inl e => throw e
  | inr a => ret a
  end.

Definition emit (e : effect) : M unit :=
  fun w =>
    (Returned tt,
     {| activeSessions := activeSessions w; calls := calls w; trace := (trace w ++ [e])%list |}).

Definition tick : M nat :=
  fun w =>
    (Returned (calls w),
     {| activeSessions := activeSessions w; calls := S (calls w); trace := trace w |}).

Definition sessions : M (list (string * Session)) :=
  fun w => (Returned (activeSessions w), w).

Definition modify (f : list (string * Session) -> list (string * Session)) : M unit :=
  fun w =>
    (Returned tt,
     {| activeSessions := f (activeSessions w); calls := calls w; trace := trace w |}).

(** [activeSessions.get(id)], [.set(id, s)], [.delete(id)], [.size] *)
Definition Map_get (id : string) : M (option Session) :=
  m <- sessions ;; ret (get id m).
Definition Map_set (id : string) (s : Session) : M unit := modify (set id s).
Definition Map_delete (id : string) : M unit := modify (delete id).
Definition Map_size : M nat := m <- sessions ;; ret (length m).

(** An assignment [session.field = v] on the object the store holds under
    [id]: the store keeps a reference, so the entry changes in place. *)
Definition assign (id : string) (f : Session -> Session) : M unit :=
  modify (fun m => match get id m with Some s => set id (f s) m | None => m end).

Definition set_isActive (b : bool) (s : Session) : Session :=
  {| ws := ws s; startTime := startTime s; language := language s; isActive := b |}.
Definition set_language (l : json) (s : Session) : Session :=
  {| ws := ws s; startTime := startTime s; language := l; isActive := isActive s |}.
Definition set_startTime (t : Z) (s : Session) : Session :=
  {| ws := ws s; startTime := t; language := language s; isActive := isActive s |}.

(** The object [session] as the store holds it now.  Only the store and the
    running handler refer to a session object, so the entry under [id] is
    that object. *)
Definition deref (id : string) (session : Session) : M Session :=
  m <- sessions ;;
  ret (match get id m with Some s => s | None => session end).

(** [activeSessions.forEach((session, sessionId) => ...)]; no callback of the
    server adds or removes entries, so the entries visited are those present
    when the loop starts. *)
Fixpoint forEach (f : Session -> string -> M unit) (entries : list (string * Session))
  : M unit :=
  match entries with
  | [] => ret tt
  | (sessionId, session) :: rest => f session sessionId ;; forEach f rest
  end.

Definition Map_forEach (f : Session -> string -> M unit) : M unit :=
  m <- sessions ;; forEach f m.

Fixpoint mapM {A B} (f : A -> M B) (l : list A) : M (list B) :=
  match l with
  | [] => ret []
  | a :: rest => b <- f a ;; bs <- mapM f rest ;; ret (b :: bs)
  end.

(** The variables a connection's three listeners close over. *)
Record conn : Type := {
  conn_ws : socket;
  conn_id : string
}.

(** What the event loop delivers.  A socket event names the closure of the
    listener it runs; any closure may be named, so the runs of the model
    include those of the server. *)
Inductive event : Type :=
| connection (sock : socket)
| ws_message (c : conn) (message : string)
| ws_closed (c : conn)
| ws_errored (c : conn)
| GET_health
| GET_sessions
| SIGTERM.

(** ** The server *)

Section Server.

Variable rt : runtime.

Definition Date_now : M Z := k <- tick ;; ret (clock rt k).

Definition process_uptime : M json := k <- tick ;; ret (uptime rt k).

(** [ws.send(JSON.stringify(msg))] on socket [to]; the attempt is recorded
    whether or not it throws. *)
Definition send (to : socket) (msg : json) : M unit :=
  k <- tick ;;
  if send_throws rt k
  then emit (ws_send to msg false) ;; throw SendError
  else emit (ws_send to msg true).

Definition parse (message : string) : M json :=
  match JSON_parse rt message with
  | Some data => ret data
  | None => throw SyntaxError
  end.

(** [String(v)] for a JSON value, as a template literal applies it.  An
    object is turned into a primitive by its [toString] and [valueOf]
    methods: a decoded object that has a [toString] property of its own
    hides the inherited method behind a value that cannot be called, the
    inherited [valueOf] returns the object itself, and the conversion
    throws; any other decoded object prints as ["[object Object]"].  An
    array joins the conversions of its elements, [null] counting as the
    empty string. *)
Fixpoint ToString (v : json) : exn + string :=
  match v with
  | JNull => inr "null"
  | JBool true => inr "true"
  | JBool false => inr "false"
  | JNum n => inr (if safe_integer n then string_of_Z n else Number_toString rt n)
  | JStr s => inr s
  | JArr items =>
      (fix join (l : list json) : exn + string :=
         match l with
         | [] => inr ""
         | x :: rest =>
             match (match x with JNull => inr "" | _ => ToString x end) with
             | inl e => inl e
             | inr elem =>
                 match rest with
                 | [] => inr elem
                 | _ :: _ =>
                     match join rest with
                     | inl e => inl e
                     | inr tail => inr (elem ++ "," ++ tail)
                     end
                 end
             end
         end) items
  | JObj fields =>
      match get "toString" fields with
      | Some _ => inl TypeError
      | None => inr "[object Object]"
      end
  end.

(** [`${v}`] *)
Definition template (v : value) : exn + string :=
  match v with
  | None => inr "undefined"
  | Some j => ToString j
  end.

(** The operand conversion of [a - b]: an object or an array goes through
    its conversion to a primitive, as in [ToString], and the string that
    gives is read as a number. *)
Definition ToNumber (v : value) : exn + number :=
  match v with
  | None => inr NaN
  | Some JNull => inr (Num 0)
  | Some (JBool true) => inr (Num 1)
  | Some (JBool false) => inr (Num 0)
  | Some (JNum n) => inr (Num n)
  | Some (JStr s) => inr (StringToNumber rt s)
  | Some (JArr items) =>
      match ToString (JArr items) with
      | inl e => inl e
      | inr s => inr (StringToNumber rt s)
      end
  | Some (JObj fields) =>
      match ToString (JObj fields) with
      | inl e => inl e
      | inr s => inr (StringToNumber rt s)
      end
  end.

(** [a - b] on numbers: the integer difference where double subtraction is
    exact, what the runtime computes elsewhere. *)
Definition number_sub (a b : number) : number :=
  match a, b with
  | Num x, Num y =>
      if safe_integer x && safe_integer y && safe_integer (x - y)
      then Num (x - y)
      else double_sub rt x y
  | _, _ => NaN
  end.

Definition generateSessionId : M string := k <- tick ;; ret (random_token rt k).

Definition broadcastSubtitle (senderSessionId : string) (subtitleData : json) : M unit :=
  senderSession <- Map_get senderSessionId ;;
  match senderSession with
  | None => ret tt
  | Some _ =>
      now <- Date_now ;;
      let broadcastData :=
        JObj (set "sessionId" (JStr senderSessionId)
                (set "serverTimestamp" (JNum now) (spread subtitleData))) in
      Map_forEach (fun session sessionId =>
        if negb (String.eqb sessionId senderSessionId) && isActive session
        then try_catch
               (send (ws session) broadcastData)
               (fun error =>
                  emit (console_error ("Error broadcasting to session " ++ sessionId ++ ":")))
        else ret tt)
  end.

Definition handleWebSocketMessage (sessionId : string) (data : json) : M unit :=
  session <- Map_get sessionId ;;
  match session with
  | None => ret tt
  | Some session =>
      let ws := ws session in
      type <- lift (get_property data "type") ;;
      if strict_eq_string type "start_listening" then
        assign sessionId (set_isActive true) ;;
        lang <- lift (get_property data "language") ;;
        assign sessionId (set_language (or_default lang (JStr "en-US"))) ;;
        now <- Date_now ;;
        assign sessionId (set_startTime now) ;;
        timestamp <- Date_now ;;
        current <- deref sessionId session ;;
        send ws (JObj [("type", JStr "listening_started");
                       ("timestamp", JNum timestamp);
                       ("language", language current)])
      else if strict_eq_string type "stop_listening" then
        assign sessionId (set_isActive false) ;;
        timestamp <- Date_now ;;
        send ws (JObj [("type", JStr "listening_stopped");
                       ("timestamp", JNum timestamp)])
      else if strict_eq_string type "subtitle_update" then
        broadcastSubtitle sessionId data
      else if strict_eq_string type "ping" then
        timestamp <- Date_now ;;
        now <- Date_now ;;
        T <- lift (get_property data "timestamp") ;;
        subtrahend <- lift (ToNumber T) ;;
        send ws (JObj [("type", JStr "pong");
                       ("timestamp", JNum timestamp);
                       ("latency", json_of_number (number_sub (Num now) subtrahend))])
      else
        text <- lift (template type) ;;
        send ws (JObj [("type", JStr "error");
                       ("message", JStr ("Unknown message type: " ++ text))])
  end.

(** The body of the [wss.on('connection')] callback up to the registration
    of the listeners; it returns what they close over. *)
Definition on_connection (sock : socket) : M conn :=
  sessionId <- generateSessionId ;;
  emit (console_log ("New subtitle session connected: " ++ sessionId)) ;;
  now <- Date_now ;;
  Map_set sessionId
    {| ws := sock; startTime := now; language := JStr "en-US"; isActive := false |} ;;
  timestamp <- Date_now ;;
  send sock (JObj [("type", JStr "session_init");
                   ("sessionId", JStr sessionId);
                   ("timestamp", JNum timestamp)]) ;;
  ret {| conn_ws := sock; conn_id := sessionId |}.

Definition on_message (c : conn) (message : string) : M unit :=
  try_catch
    (data <- parse message ;;
     handleWebSocketMessage (conn_id c) data)
    (fun error =>
       emit (console_error "Error parsing WebSocket message:") ;;
       send (conn_ws c) (JObj [("type", JStr "error");
                               ("message", JStr "Invalid message format")])).

Definition on_close (c : conn) : M unit :=
  emit (console_log ("Subtitle session disconnected: " ++ conn_id c)) ;;
  Map_delete (conn_id c).

Definition on_error (c : conn) : M unit :=
  emit (console_error ("WebSocket error for session " ++ conn_id c ++ ":")) ;;
  Map_delete (conn_id c).

Definition api_health : M unit :=
  timestamp <- Date_now ;;
  size <- Map_size ;;
  up <- process_uptime ;;
  emit (res_json (JObj [("status", JStr "healthy");
                        ("timestamp", JNum timestamp);
                        ("activeSessions", JNum (Z.of_nat size));
                        ("uptime", up)])).

Definition api_sessions : M unit :=
  m <- sessions ;;
  listed <- mapM (fun entry : string * Session =>
                    let (id, session) := entry in
                    now <- Date_now ;;
                    ret (JObj [("id", JStr id);
                               ("startTime", JNum (startTime session));
                               ("language", language session);
                               ("isActive", JBool (isActive session));
                               ("uptime", JNum (now - startTime session))])) m ;;
  emit (res_json
          (JObj [("sessions", JArr listed);
                 ("total", JNum (Z.of_nat (length listed)));
                 ("active",
                  JNum (Z.of_nat (length (filter (fun e => isActive (snd e)) m))))])).

Definition on_SIGTERM : M unit :=
  emit (console_log "Received SIGTERM, shutting down gracefully...") ;;
  Map_forEach (fun session sessionId =>
    try_catch
      (send (ws session) (JObj [("type", JStr "server_shutdown");
                                ("message", JStr "Server is shutting down")]) ;;
       emit (ws_close (ws session)))
      (fun error => emit (console_error ("Error closing session " ++ sessionId ++ ":")))) ;;
  emit server_close.

(** One turn of the event loop: each handler runs to completion. *)
Definition handle (e : event) : M unit :=
  match e with
  | connection sock => _ <- on_connection sock ;; ret tt
  | ws_message c message => on_message c message
  | ws_closed c => on_close c
  | ws_errored c => on_error c
  | GET_health => api_health
  | GET_sessions => api_sessions
  | SIGTERM => on_SIGTERM
  end.

Inductive reachable : world -> Prop :=
| reachable_initial : reachable initial
| reachable_handle (w : world) (e : event) :
    reachable w -> reachable (snd (handle e w)).

End Server.

(** ** What a run of the broadcaster leaves in the trace *)

(** The sessions a broadcast from [sender] addresses: the entries of the
    store, in order, whose id differs from the sender's and whose active
    flag is set. *)
Definition eligible (sender : string) (m : list (string * Session))
  : list (string * Session) :=
  filter (fun e => negb (String.eqb (fst e) sender) && isActive (snd e)) m.

(** The effects of offering [msg] to [recipients] in turn, the first
    [ws.send] being runtime call number [k]. *)
Fixpoint deliveries (rt : runtime) (msg : json) (k : nat)
  (recipients : list (string * Session)) : list effect :=
  match recipients with
  | [] => []
  | (id, s) :: rest =>
      if send_throws rt k
      then ws_send (ws s) msg false
           :: console_error ("Error broadcasting to session " ++ id ++ ":")
           :: deliveries rt msg (S k) rest
      else ws_send (ws s) msg true :: deliveries rt msg (S k) rest
  end.

(** The [ws.send] calls of a trace, successful or not. *)
Fixpoint sends_of (tr : list effect) : list (socket * json) :=
  match tr with
  | [] => []
  | ws_send to msg _ :: rest => (to, msg) :: sends_of rest
  | _ :: rest => sends_of rest
  end.

Definition is_close (e : effect) : bool :=
  match e with ws_close _ => true | _ => false end.

(** The value of [broadcastData]. *)
Definition broadcast_message (sender : string) (now : Z) (payload : json) : json :=
  JObj (set "sessionId" (JStr sender) (set "serverTimestamp" (JNum now) (spread payload))).

(** ** What the router dispatches on *)

(** Whether [data.type] is one of the four literals of the [switch]. *)
Definition known_type (type : value) : bool :=
  strict_eq_string type "start_listening"
  || strict_eq_string type "stop_listening"
  || strict_eq_string type "subtitle_update"
  || strict_eq_string type "ping".

(** [data.k] where the read does not throw. *)
Definition property (data : json) (k : string) : value :=
  match get_property data k with
  | inr v => v
  | inl _ => None
  end.

(** ** The per-session state machine of the specification *)

(** Where the session with id [sid] stands: not in the store, in the store
    with [isActive] false, in the store with [isActive] true.  An id that
    was never issued is not in the store either. *)
Inductive phase : Type :=
| Removed
| Connected
| Active.

Definition phase_of (sid : string) (w : world) : phase :=
  match get sid (activeSessions w) with
  | None => Removed
  | Some s => if isActive s then Active else Connected
  end.

(** What an event is to one session. *)
Inductive input : Type :=
| accept
| start_listening
| stop_listening
| drop
| other.

(** The machine as the specification draws it:
    Connected(inactive) -> start_listening -> Active -> stop_listening ->
    Connected(inactive) -> (close/error, from either state) -> Removed,
    a session entering at Connected(inactive) when its connection is
    accepted, and nothing else moving it. *)
Definition spec_transition (p : phase) (i : input) : phase :=
  match i, p with
  | accept, Removed => Connected
  | accept, _ => p
  | start_listening, Removed => Removed
  | start_listening, _ => Active
  | stop_listening, Removed => Removed
  | stop_listening, _ => Connected
  | drop, _ => Removed
  | other, _ => p
  end.

(** The type a frame announces, when it decodes to something that has
    properties. *)
Definition message_type (rt : runtime) (message : string) : option value :=
  match JSON_parse rt message with
  | Some data =>
      match get_property data "type" with
      | inr type => Some type
      | inl _ => None
      end
  | None => None
  end.

Definition input_of (rt : runtime) (sid : string) (w : world) (e : event) : input :=
  match e with
  | connection _ =>
      if String.eqb (random_token rt (calls w)) sid then accept else other
  | ws_message c message =>
      if String.eqb (conn_id c) sid then
        match message_type rt message with
        | Some type =>
            if strict_eq_string type "start_listening" then start_listening
            else if strict_eq_string type "stop_listening" then stop_listening
            else other
        | None => other
        end
      else other
  | ws_closed c => if String.eqb (conn_id c) sid then drop else other
  | ws_errored c => if String.eqb (conn_id c) sid then drop else other
  | GET_health => other
  | GET_sessions => other
  | SIGTERM => other
  end.

(** Identifiers are unique per connection: the token drawn for a new
    connection is not the id of a session in the store. *)
Definition fresh_token (rt : runtime) (e : event) (w : world) : Prop :=
  match e with
  | connection _ => get (random_token rt (calls w)) (activeSessions w) = None
  | _ => True
  end.

(** The same state with the active flag of session [sid] set to [b]. *)
Definition with_flag (sid : string) (b : bool) (w : world) : world :=
  {| activeSessions :=
       match get sid (activeSessions w) with
       | Some s => set sid (set_isActive b s) (activeSessions w)
       | None => activeSessions w
       end;
     calls := calls w;
     trace := trace w |}.

(** A computation that leaves the session store as it found it. *)
Definition preserves {A} (c : M A) : Prop :=
  forall w, activeSessions (snd (c w)) = activeSessions w.

(** ** A concrete runtime and concrete states, for examples *)

Module Sample.

Definition dq : string := String (ascii_of_nat 34) EmptyString.

(** The text of [{"type":"<t>"}]. *)
Definition frame_of_type (t : string) : string :=
  "{" ++ dq ++ "type" ++ dq ++ ":" ++ dq ++ t ++ dq ++ "}".

(** The text of [{"type":{"toString":1}}]. *)
Definition frame_of_opaque_type : string :=
  "{" ++ dq ++ "type" ++ dq ++ ":{" ++ dq ++ "toString" ++ dq ++ ":1}}".

(** A decoder that knows a few frames and rejects the rest. *)
Definition decode (message : string) : option json :=
  if String.eqb message frame_of_opaque_type
  then Some (JObj [("type", JObj [("toString", JNum 1)])])
  else if String.eqb message (frame_of_type "ping") then Some (JObj [("type", JStr "ping")])
  else if String.eqb message (frame_of_type "foo") then Some (JObj [("type", JStr "foo")])
  else if String.eqb message (frame_of_type "start_listening")
       then Some (JObj [("type", JStr "start_listening")])
  else if String.eqb message (frame_of_type "stop_listening")
       then Some (JObj [("type", JStr "stop_listening")])
  else if String.eqb message (frame_of_type "subtitle_update")
       then Some (JObj [("type", JStr "subtitle_update")])
  else if String.eqb message "null" then Some JNull
  else None.

(** Decimal integer literals only.  The sample runtimes are run on small
    numbers, where [Number_toString] and [double_sub] are not consulted. *)
Definition to_number (s : string) : number :=
  if String.eqb s "" then Num 0
  else match NilZero.int_of_string s with
       | Some i => Num (Z.of_int i)
       | None => NaN
       end.

Definition rt : runtime := {|
  JSON_parse := decode;
  StringToNumber := to_number;
  Number_toString := string_of_Z;
  double_sub := fun _ _ => NaN;
  clock := fun k => (1000 + Z.of_nat k)%Z;
  random_token := fun k => "id" ++ string_of_nat k;
  send_throws := fun _ => false;
  uptime := fun k => JNum (Z.of_nat k)
|}.

(** The same runtime with sockets whose every second [ws.send] throws. *)
Definition flaky : runtime := {|
  JSON_parse := decode;
  StringToNumber := to_number;
  Number_toString := string_of_Z;
  double_sub := fun _ _ => NaN;
  clock := fun k => (1000 + Z.of_nat k)%Z;
  random_token := fun k => "id" ++ string_of_nat k;
  send_throws := Nat.even;
  uptime := fun k => JNum (Z.of_nat k)
|}.

(** A runtime whose random generator repeats the token ["A"]. *)
Definition colliding : runtime := {|
  JSON_parse := decode;
  StringToNumber := to_number;
  Number_toString := string_of_Z;
  double_sub := fun _ _ => NaN;
  clock := fun k => (1000 + Z.of_nat k)%Z;
  random_token := fun _ => "A";
  send_throws := fun _ => false;
  uptime := fun k => JNum (Z.of_nat k)
|}.

Definition session (sock : socket) (active : bool) : Session :=
  {| ws := sock; startTime := 1000; language := JStr "en-US"; isActive := active |}.

(** Three sessions: A and B active, C inactive. *)
Definition three : world :=
  {| activeSessions := [("A", session 1 true); ("B", session 2 true); ("C", session 3 false)];
     calls := 7;
     trace := [] |}.

(** Four sessions, three of them active. *)
Definition four : world :=
  {| activeSessions := [("A", session 1 true); ("B", session 2 true);
                        ("C", session 3 false); ("D", session 4 true)];
     calls := 7;
     trace := [] |}.

Definition connA : conn := {| conn_ws := 1; conn_id := "A" |}.

(** The state after one connection has been accepted. *)
Definition one_connected : world := snd (handle rt (connection 1) initial).

End Sample.

(** ** What the listing and the shutdown leave in the trace *)

(** The object [/api/sessions] builds for one session, [now] being the
    clock reading taken for its uptime. *)
Definition session_entry (now : Z) (id : string) (s : Session) : json :=
  JObj [("id", JStr id);
        ("startTime", JNum (startTime s));
        ("language", language s);
        ("isActive", JBool (isActive s));
        ("uptime", JNum (now - startTime s))].

(** The array of those objects, the first clock reading being runtime call
    number [k]. *)
Fixpoint listing (rt : runtime) (k : nat) (m : list (string * Session)) : list json :=
  match m with
  | [] => []
  | (id, s) :: rest => session_entry (clock rt k) id s :: listing rt (S k) rest
  end.

Definition active_count (m : list (string * Session)) : nat :=
  length (filter (fun e => isActive (snd e)) m).

Definition shutdown_notice : json :=
  JObj [("type", JStr "server_shutdown"); ("message", JStr "Server is shutting down")].

(** The effects of the loop of the SIGTERM handler over the sessions [m],
    its first [ws.send] being runtime call number [k]. *)
Fixpoint shutdown_effects (rt : runtime) (k : nat) (m : list (string * Session))
  : list effect :=
  match m with
  | [] => []
  | (id, s) :: rest =>
      if send_throws rt k
      then ws_send (ws s) shutdown_notice false
           :: console_error ("Error closing session " ++ id ++ ":")
           :: shutdown_effects rt (S k) rest
      else ws_send (ws s) shutdown_notice true
           :: ws_close (ws s)
           :: shutdown_effects rt (S k) rest
  end.

(** The sockets a trace closes, and the sockets it sends to without a
    throw. *)
Fixpoint closes_of (tr : list effect) : list socket :=
  match tr with
  | [] => []
  | ws_close sock :: rest => sock :: closes_of rest
  | _ :: rest => closes_of rest
  end.

Fixpoint delivered_of (tr : list effect) : list socket :=
  match tr with
  | [] => []
  | ws_send to _ true :: rest => to :: delivered_of rest
  | _ :: rest => delivered_of rest
  end.

(** The id and the socket of every session, in store order. *)
Definition sockets (m : list (string * Session)) : list (string * socket) :=
  map (fun e => (fst e, ws (snd e))) m.

Definition invalid_format : json :=
  JObj [("type", JStr "error"); ("message", JStr "Invalid message format")].

(** ** Facts about insertion-ordered collections *)

Section OrderedFacts.
Context {V : Type}.
Implicit Types (k : string) (m : list (string * V)).

Lemma get_set_same k (v : V) m : get k (set k v m) = Some v.
Proof.
  induction m as [|[k' v'] rest IH]; cbn.
  - now rewrite String.eqb_refl.
  - destruct (String.eqb k' k) eqn:E; cbn; now rewrite E.
Qed.

Lemma get_set_other k k' (v : V) m : k' <> k -> get k (set k' v m) = get k m.
Proof.
  intros D. induction m as [|[k0 v0] rest IH]; cbn.
  - destruct (String.eqb_spec k' k); congruence.
  - destruct (String.eqb_spec k0 k') as [->|]; cbn.
    + destruct (String.eqb_spec k' k); congruence.
    + now rewrite IH.
Qed.

Lemma set_set k (v1 v2 : V) m : set k v2 (set k v1 m) = set k v2 m.
Proof.
  induction m as [|[k' v'] rest IH]; cbn.
  - now rewrite String.eqb_refl.
  - destruct (String.eqb k' k) eqn:E; cbn; rewrite E; congruence.
Qed.

Lemma get_delete_same k m : get k (delete k m) = None.
Proof.
  induction m as [|[k' v'] rest IH]; cbn; [reflexivity|].
  destruct (String.eqb k' k) eqn:E; cbn; [|rewrite E]; exact IH.
Qed.

Lemma get_delete_other k k' m : k' <> k -> get k (delete k' m) = get k m.
Proof.
  intros D. induction m as [|[k0 v0] rest IH]; cbn; [reflexivity|].
  destruct (String.eqb_spec k0 k') as [->|]; cbn.
  - destruct (String.eqb_spec k' k); congruence.
  - now rewrite IH.
Qed.

Lemma delete_absent k m : get k m = None -> delete k m = m.
Proof.
  induction m as [|[k' v'] rest IH]; cbn; [reflexivity|].
  destruct (String.eqb k' k); [discriminate|].
  intros A. now rewrite IH.
Qed.

Lemma delete_delete k m : delete k (delete k m) = delete k m.
Proof. apply delete_absent, get_delete_same. Qed.

Lemma keys_set k (v : V) m x : In x (keys (set k v m)) <-> x = k \/ In x (keys m).
Proof.
  induction m as [|[k' v'] rest IH]; cbn.
  - intuition congruence.
  - destruct (String.eqb_spec k' k) as [->|D]; cbn.
    + intuition congruence.
    + rewrite IH. tauto.
Qed.

Lemma keys_delete k m x : In x (keys (delete k m)) -> In x (keys m).
Proof.
  induction m as [|[k' v'] rest IH]; cbn; [tauto|].
  destruct (String.eqb k' k); cbn; tauto.
Qed.

Lemma NoDup_keys_set k (v : V) m : NoDup (keys m) -> NoDup (keys (set k v m)).
Proof.
  induction m as [|[k' v'] rest IH]; cbn; intros N.
  - constructor; [tauto | constructor].
  - inversion N as [|? ? Fresh N']; subst.
    destruct (String.eqb_spec k' k) as [->|D]; cbn.
    + now constructor.
    + constructor; [|now apply IH].
      intros I. apply (proj1 (keys_set k v rest k')) in I.
      destruct I as [->|I]; tauto.
Qed.

Lemma NoDup_keys_delete k m : NoDup (keys m) -> NoDup (keys (delete k m)).
Proof.
  induction m as [|[k' v'] rest IH]; cbn; intros N; [constructor|].
  inversion N as [|? ? Fresh N']; subst.
  destruct (String.eqb k' k); cbn; [now apply IH|].
  constructor; [|now apply IH].
  intros I. now apply keys_delete in I.
Qed.

Lemma length_keys m : length (keys m) = length m.
Proof. apply length_map. Qed.
End OrderedFacts.

(** ** Running the monad's primitives *)

Lemma send_run rt to msg w :
  send rt to msg w =
  ((if send_throws rt (calls w) then Thrown SendError else Returned tt),
   {| activeSessions := activeSessions w;
      calls := S (calls w);
      trace := (trace w ++ [ws_send to msg (negb (send_throws rt (calls w)))])%list |}).
Proof.
  unfold send, bind, tick, emit, throw. cbn.
  destruct (send_throws rt (calls w)); reflexivity.
Qed.

Lemma sends_of_deliveries rt msg k recipients :
  sends_of (deliveries rt msg k recipients) =
  map (fun e => (ws (snd e), msg)) recipients.
Proof.
  revert k. induction recipients as [|[id s] rest IH]; intros k; cbn; [reflexivity|].
  destruct (send_throws rt k); cbn; now rewrite IH.
Qed.

Lemma deliveries_no_close rt msg k recipients :
  forallb (fun e => negb (is_close e)) (deliveries rt msg k recipients) = true.
Proof.
  revert k. induction recipients as [|[id s] rest IH]; intros k; cbn; [reflexivity|].
  destruct (send_throws rt k); cbn; apply IH.
Qed.

(** The loop of [broadcastSubtitle]: every eligible entry is offered the
    message, a throwing [ws.send] is logged and the loop goes on. *)
Lemma broadcast_loop rt sender msg entries w :
  forEach
    (fun session sessionId =>
       if negb (String.eqb sessionId sender) && isActive session
       then try_catch
              (send rt (ws session) msg)
              (fun error =>
                 emit (console_error ("Error broadcasting to session " ++ sessionId ++ ":")))
       else ret tt)
    entries w =
  (Returned tt,
   {| activeSessions := activeSessions w;
      calls := calls w + length (eligible sender entries);
      trace := (trace w ++ deliveries rt msg (calls w) (eligible sender entries))%list |}).
Proof.
  revert w. induction entries as [|[id s] rest IH]; intros w.
  - cbn. unfold ret. destruct w; cbn. now rewrite Nat.add_0_r, app_nil_r.
  - cbn [forEach eligible filter fst snd].
    unfold bind at 1.
    destruct (negb (String.eqb id sender) && isActive s) eqn:E.
    + unfold try_catch. rewrite send_run.
      destruct (send_throws rt (calls w)) eqn:F; cbn [negb].
      * unfold emit; cbn. rewrite IH; cbn. fold (eligible sender rest).
        rewrite F. f_equal. f_equal; [lia|].
        now rewrite <- !app_assoc.
      * rewrite IH; cbn. fold (eligible sender rest).
        rewrite F. f_equal. f_equal; [lia|].
        now rewrite <- !app_assoc.
    + unfold ret at 1. rewrite IH. reflexivity.
Qed.

Lemma broadcastSubtitle_absent rt sender payload w :
  get sender (activeSessions w) = None ->
  broadcastSubtitle rt sender payload w = (Returned tt, w).
Proof.
  intros A. unfold broadcastSubtitle, Map_get, sessions, bind, ret. cbn.
  now rewrite A.
Qed.

Lemma broadcastSubtitle_present rt sender payload w s :
  get sender (activeSessions w) = Some s ->
  broadcastSubtitle rt sender payload w =
  (Returned tt,
   {| activeSessions := activeSessions w;
      calls := S (calls w) + length (eligible sender (activeSessions w));
      trace := (trace w ++
                deliveries rt (broadcast_message sender (clock rt (calls w)) payload)
                  (S (calls w)) (eligible sender (activeSessions w)))%list |}).
Proof.
  intros P. unfold broadcastSubtitle, Map_get, sessions, bind at 1 2, ret at 1 2. cbn.
  rewrite P. unfold Date_now, tick, bind at 1 2, ret at 1, Map_forEach, sessions, bind at 1.
  cbn. now rewrite broadcast_loop.
Qed.

(** ** Running the router, branch by branch *)

Lemma strict_eq_string_true v literal :
  strict_eq_string v literal = true <-> v = Some (JStr literal).
Proof.
  destruct v as [[]|]; cbn; try (split; congruence).
  rewrite String.eqb_eq. split; congruence.
Qed.

Ltac finish_send :=
  unfold send, bind, tick, emit, throw, ret; cbn;
  repeat match goal with
         | |- context [send_throws ?r ?k] => destruct (send_throws r k)
         end;
  reflexivity.

Ltac decide_type :=
  repeat match goal with
         | |- context [strict_eq_string (Some (JStr ?a)) ?b] =>
             let r := eval vm_compute in (strict_eq_string (Some (JStr a)) b) in
             change (strict_eq_string (Some (JStr a)) b) with r
         end;
  cbv iota.

(* Look the session up, then read [data.type]. *)
Ltac enter_router P :=
  unfold handleWebSocketMessage, Map_get, sessions;
  unfold bind at 1 2; unfold ret at 1 2;
  cbv beta iota; rewrite P; cbv beta iota zeta.

Ltac read_type T :=
  unfold bind at 1; unfold lift, get_property; unfold ret at 1;
  cbv beta iota; rewrite T; decide_type.

Lemma router_absent rt sid data w :
  get sid (activeSessions w) = None ->
  handleWebSocketMessage rt sid data w = (Returned tt, w).
Proof. intros A. now enter_router A. Qed.

Lemma router_no_type rt sid data w s e :
  get sid (activeSessions w) = Some s ->
  get_property data "type" = inl e ->
  handleWebSocketMessage rt sid data w = (Thrown e, w).
Proof.
  intros P T. enter_router P. unfold bind, lift. now rewrite T.
Qed.

Lemma router_start rt sid fields w s :
  get sid (activeSessions w) = Some s ->
  get "type" fields = Some (JStr "start_listening") ->
  let resolved := or_default (get "language" fields) (JStr "en-US") in
  handleWebSocketMessage rt sid (JObj fields) w =
  ((if send_throws rt (2 + calls w) then Thrown SendError else Returned tt),
   {| activeSessions :=
        set sid {| ws := ws s; startTime := clock rt (calls w);
                   language := resolved; isActive := true |} (activeSessions w);
      calls := 3 + calls w;
      trace := (trace w ++
                [ws_send (ws s)
                   (JObj [("type", JStr "listening_started");
                          ("timestamp", JNum (clock rt (1 + calls w)));
                          ("language", resolved)])
                   (negb (send_throws rt (2 + calls w)))])%list |}).
Proof.
  intros P T resolved. enter_router P. read_type T.
  unfold bind, assign, modify, Date_now, tick, deref, sessions, ret. cbn.
  rewrite P. cbn.
  repeat (rewrite ?get_set_same, ?set_set; cbn).
  finish_send.
Qed.

Lemma router_stop rt sid fields w s :
  get sid (activeSessions w) = Some s ->
  get "type" fields = Some (JStr "stop_listening") ->
  handleWebSocketMessage rt sid (JObj fields) w =
  ((if send_throws rt (1 + calls w) then Thrown SendError else Returned tt),
   {| activeSessions := set sid (set_isActive false s) (activeSessions w);
      calls := 2 + calls w;
      trace := (trace w ++
                [ws_send (ws s)
                   (JObj [("type", JStr "listening_stopped");
                          ("timestamp", JNum (clock rt (calls w)))])
                   (negb (send_throws rt (1 + calls w)))])%list |}).
Proof.
  intros P T. enter_router P. read_type T.
  unfold bind, assign, modify, Date_now, tick, ret. cbn.
  rewrite P. finish_send.
Qed.

Lemma router_subtitle rt sid fields w s :
  get sid (activeSessions w) = Some s ->
  get "type" fields = Some (JStr "subtitle_update") ->
  handleWebSocketMessage rt sid (JObj fields) w =
  broadcastSubtitle rt sid (JObj fields) w.
Proof.
  intros P T. enter_router P. read_type T. reflexivity.
Qed.

Lemma router_ping rt sid fields w s subtrahend :
  get sid (activeSessions w) = Some s ->
  get "type" fields = Some (JStr "ping") ->
  ToNumber rt (get "timestamp" fields) = inr subtrahend ->
  handleWebSocketMessage rt sid (JObj fields) w =
  ((if send_throws rt (2 + calls w) then Thrown SendError else Returned tt),
   {| activeSessions := activeSessions w;
      calls := 3 + calls w;
      trace := (trace w ++
                [ws_send (ws s)
                   (JObj [("type", JStr "pong");
                          ("timestamp", JNum (clock rt (calls w)));
                          ("latency",
                           json_of_number
                             (number_sub rt (Num (clock rt (1 + calls w))) subtrahend))])
                   (negb (send_throws rt (2 + calls w)))])%list |}).
Proof.
  intros P T N. enter_router P. read_type T.
  unfold bind, Date_now, tick, ret, lift, get_property. cbv beta iota.
  rewrite N. cbv beta iota.
  finish_send.
Qed.

(** The subtraction throws before anything is sent. *)
Lemma router_ping_throws rt sid fields w s e :
  get sid (activeSessions w) = Some s ->
  get "type" fields = Some (JStr "ping") ->
  ToNumber rt (get "timestamp" fields) = inl e ->
  handleWebSocketMessage rt sid (JObj fields) w =
  (Thrown e,
   {| activeSessions := activeSessions w;
      calls := 2 + calls w;
      trace := trace w |}).
Proof.
  intros P T N. enter_router P. read_type T.
  unfold bind, Date_now, tick, ret, lift, get_property. cbv beta iota.
  rewrite N. reflexivity.
Qed.

Lemma router_unknown rt sid data w s type text :
  get sid (activeSessions w) = Some s ->
  get_property data "type" = inr type ->
  known_type type = false ->
  template rt type = inr text ->
  handleWebSocketMessage rt sid data w =
  ((if send_throws rt (calls w) then Thrown SendError else Returned tt),
   {| activeSessions := activeSessions w;
      calls := 1 + calls w;
      trace := (trace w ++
                [ws_send (ws s)
                   (JObj [("type", JStr "error");
                          ("message", JStr ("Unknown message type: " ++ text))])
                   (negb (send_throws rt (calls w)))])%list |}).
Proof.
  intros P T K X. enter_router P.
  unfold bind at 1, lift. rewrite T. unfold ret at 1. cbv beta iota.
  unfold known_type in K. rewrite !orb_false_iff in K.
  destruct K as [[[K1 K2] K3] K4]. rewrite K1, K2, K3, K4.
  unfold bind at 1. rewrite X. unfold ret at 1. cbv beta iota.
  finish_send.
Qed.

(** The template literal throws before anything is sent. *)
Lemma router_unknown_throws rt sid data w s type e :
  get sid (activeSessions w) = Some s ->
  get_property data "type" = inr type ->
  known_type type = false ->
  template rt type = inl e ->
  handleWebSocketMessage rt sid data w = (Thrown e, w).
Proof.
  intros P T K X. enter_router P.
  unfold bind at 1, lift. rewrite T. unfold ret at 1. cbv beta iota.
  unfold known_type in K. rewrite !orb_false_iff in K.
  destruct K as [[[K1 K2] K3] K4]. rewrite K1, K2, K3, K4.
  unfold bind at 1. now rewrite X.
Qed.

(** ** Computations that leave the store alone *)

Create HintDb preserve.

Lemma preserves_ret {A} (a : A) : preserves (ret a).
Proof. intros w. reflexivity. Qed.

Lemma preserves_throw {A} (e : exn) : preserves (@throw A e).
Proof. intros w. reflexivity. Qed.

Lemma preserves_bind {A B} (c : M A) (k : A -> M B) :
  preserves c -> (forall a, preserves (k a)) -> preserves (bind c k).
Proof.
  intros Hc Hk w. unfold bind. specialize (Hc w).
  destruct (c w) as [[a|e] w']; cbn in *.
  - now rewrite Hk.
  - exact Hc.
Qed.

Lemma preserves_try_catch {A} (body : M A) (handler : exn -> M A) :
  preserves body -> (forall e, preserves (handler e)) -> preserves (try_catch body handler).
Proof.
  intros Hb Hh w. unfold try_catch. specialize (Hb w).
  destruct (body w) as [[a|e] w']; cbn in *.
  - exact Hb.
  - now rewrite Hh.
Qed.

Lemma preserves_emit e : preserves (emit e).
Proof. intros w. reflexivity. Qed.

Lemma preserves_tick : preserves tick.
Proof. intros w. reflexivity. Qed.

Lemma preserves_sessions : preserves sessions.
Proof. intros w. reflexivity. Qed.

Lemma preserves_lift {A} (r : exn + A) : preserves (lift r).
Proof. destruct r; intros w; reflexivity. Qed.

#[local] Hint Resolve preserves_ret preserves_throw preserves_emit preserves_tick
  preserves_sessions preserves_lift : preserve.
#[local] Hint Extern 2 (preserves (bind _ _)) =>
  apply preserves_bind; [|intro] : preserve.
#[local] Hint Extern 2 (preserves (try_catch _ _)) =>
  apply preserves_try_catch; [|intro] : preserve.
#[local] Hint Extern 3 (preserves (if ?b then _ else _)) => destruct b : preserve.

Lemma preserves_Date_now rt : preserves (Date_now rt).
Proof. unfold Date_now. auto with preserve. Qed.

Lemma preserves_process_uptime rt : preserves (process_uptime rt).
Proof. unfold process_uptime. auto with preserve. Qed.

Lemma preserves_send rt to msg : preserves (send rt to msg).
Proof. unfold send. auto 6 with preserve. Qed.

Lemma preserves_Map_get id : preserves (Map_get id).
Proof. unfold Map_get. auto with preserve. Qed.

Lemma preserves_Map_size : preserves Map_size.
Proof. unfold Map_size. auto with preserve. Qed.

#[local] Hint Resolve preserves_Date_now preserves_process_uptime preserves_send
  preserves_Map_get preserves_Map_size : preserve.

Lemma preserves_forEach f entries :
  (forall session sessionId, preserves (f session sessionId)) ->
  preserves (forEach f entries).
Proof.
  intros Hf. induction entries as [|[id s] rest IH]; cbn; auto with preserve.
Qed.

Lemma preserves_Map_forEach f :
  (forall session sessionId, preserves (f session sessionId)) ->
  preserves (Map_forEach f).
Proof.
  intros Hf. unfold Map_forEach. apply preserves_bind; [auto with preserve|].
  intros m. now apply preserves_forEach.
Qed.

Lemma preserves_mapM {A B} (f : A -> M B) l :
  (forall a, preserves (f a)) -> preserves (mapM f l).
Proof.
  intros Hf. induction l as [|a rest IH]; cbn; auto with preserve.
Qed.

Lemma preserves_broadcastSubtitle rt sender payload :
  preserves (broadcastSubtitle rt sender payload).
Proof.
  unfold broadcastSubtitle. apply preserves_bind; [auto with preserve|].
  intros [s|]; [|auto with preserve].
  apply preserves_bind; [auto with preserve|]. intros now.
  apply preserves_Map_forEach. intros session sessionId.
  auto 6 with preserve.
Qed.

Lemma preserves_api_health rt : preserves (api_health rt).
Proof. unfold api_health. auto 8 with preserve. Qed.

Lemma preserves_api_sessions rt : preserves (api_sessions rt).
Proof.
  unfold api_sessions. apply preserves_bind; [auto with preserve|]. intros m.
  apply preserves_bind; [|auto with preserve].
  apply preserves_mapM. intros [id s]. auto with preserve.
Qed.

Lemma preserves_on_SIGTERM rt : preserves (on_SIGTERM rt).
Proof.
  unfold on_SIGTERM. apply preserves_bind; [auto with preserve|]. intros _.
  apply preserves_bind; [|auto with preserve].
  apply preserves_Map_forEach. intros session sessionId. auto 6 with preserve.
Qed.

(** ** What each handler does to the store *)

Lemma get_type_object data literal :
  get_property data "type" = inr (Some (JStr literal)) ->
  exists fields, data = JObj fields /\ get "type" fields = Some (JStr literal).
Proof.
  destruct data; cbn; try discriminate.
  intros E. injection E as E. eauto.
Qed.

(** The store after the router has run on [data] for session [sid]. *)
Lemma router_store rt sid data w :
  activeSessions (snd (handleWebSocketMessage rt sid data w)) =
  match get sid (activeSessions w), get_property data "type" with
  | Some s, inr type =>
      if strict_eq_string type "start_listening" then
        set sid {| ws := ws s; startTime := clock rt (calls w);
                   language := or_default (property data "language") (JStr "en-US");
                   isActive := true |} (activeSessions w)
      else if strict_eq_string type "stop_listening" then
        set sid (set_isActive false s) (activeSessions w)
      else activeSessions w
  | _, _ => activeSessions w
  end.
Proof.
  destruct (get sid (activeSessions w)) as [s|] eqn:P.
  2: { now rewrite router_absent. }
  destruct (get_property data "type") as [e|type] eqn:T.
  { now rewrite (router_no_type rt sid data w s e). }
  destruct (strict_eq_string type "start_listening") eqn:K1.
  { apply strict_eq_string_true in K1. subst type.
    destruct (get_type_object _ _ T) as (fields & -> & T').
    now rewrite (router_start rt sid fields w s). }
  destruct (strict_eq_string type "stop_listening") eqn:K2.
  { apply strict_eq_string_true in K2. subst type.
    destruct (get_type_object _ _ T) as (fields & -> & T').
    now rewrite (router_stop rt sid fields w s). }
  destruct (strict_eq_string type "subtitle_update") eqn:K3.
  { apply strict_eq_string_true in K3. subst type.
    destruct (get_type_object _ _ T) as (fields & -> & T').
    rewrite (router_subtitle rt sid fields w s) by assumption.
    apply preserves_broadcastSubtitle. }
  destruct (strict_eq_string type "ping") eqn:K4.
  { apply strict_eq_string_true in K4. subst type.
    destruct (get_type_object _ _ T) as (fields & -> & T').
    destruct (ToNumber rt (get "timestamp" fields)) as [e|n] eqn:N.
    - now rewrite (router_ping_throws rt sid fields w s e).
    - now rewrite (router_ping rt sid fields w s n). }
  assert (K : known_type type = false)
    by (unfold known_type; now rewrite K1, K2, K3, K4).
  destruct (template rt type) as [e|text] eqn:X.
  - now rewrite (router_unknown_throws rt sid data w s type e).
  - now rewrite (router_unknown rt sid data w s type text).
Qed.

(** The listener's [catch] leaves the store as the [try] block left it. *)
Lemma on_message_store rt c message w :
  activeSessions (snd (on_message rt c message w)) =
  match JSON_parse rt message with
  | Some data => activeSessions (snd (handleWebSocketMessage rt (conn_id c) data w))
  | None => activeSessions w
  end.
Proof.
  unfold on_message, try_catch, parse. unfold bind at 1.
  destruct (JSON_parse rt message) as [data|].
  - unfold ret at 1. cbv beta iota.
    destruct (handleWebSocketMessage rt (conn_id c) data w) as [[[]|e] w']; cbn [snd].
    + reflexivity.
    + assert (H : preserves
                    (emit (console_error "Error parsing WebSocket message:") ;;
                     send rt (conn_ws c)
                       (JObj [("type", JStr "error");
                              ("message", JStr "Invalid message format")])))
        by auto with preserve.
      apply H.
  - unfold throw at 1. cbv beta iota.
    assert (H : preserves
                  (emit (console_error "Error parsing WebSocket message:") ;;
                   send rt (conn_ws c)
                     (JObj [("type", JStr "error");
                            ("message", JStr "Invalid message format")])))
      by auto with preserve.
    apply H.
Qed.

Lemma on_connection_store rt sock w :
  activeSessions (snd (on_connection rt sock w)) =
  set (random_token rt (calls w))
    {| ws := sock; startTime := clock rt (1 + calls w);
       language := JStr "en-US"; isActive := false |}
    (activeSessions w).
Proof.
  unfold on_connection, generateSessionId, Date_now, Map_set, modify.
  unfold bind, tick, emit, ret, send, throw. cbn.
  destruct (send_throws rt (S (S (S (calls w))))); reflexivity.
Qed.

Lemma connection_store rt sock w :
  activeSessions (snd (handle rt (connection sock) w)) =
  set (random_token rt (calls w))
    {| ws := sock; startTime := clock rt (1 + calls w);
       language := JStr "en-US"; isActive := false |}
    (activeSessions w).
Proof.
  pose proof (on_connection_store rt sock w) as H.
  cbn [handle]. unfold bind.
  destruct (on_connection rt sock w) as [[a|e] w']; exact H.
Qed.

Lemma on_close_run c w :
  on_close c w =
  (Returned tt,
   {| activeSessions := delete (conn_id c) (activeSessions w);
      calls := calls w;
      trace := (trace w ++
                [console_log ("Subtitle session disconnected: " ++ conn_id c)])%list |}).
Proof. reflexivity. Qed.

Lemma on_error_run c w :
  on_error c w =
  (Returned tt,
   {| activeSessions := delete (conn_id c) (activeSessions w);
      calls := calls w;
      trace := (trace w ++
                [console_error ("WebSocket error for session " ++ conn_id c ++ ":")])%list |}).
Proof. reflexivity. Qed.

(** Every event leaves the store alone, writes one entry or deletes one. *)
Lemma handle_store rt e w :
  let m := activeSessions w in
  let m' := activeSessions (snd (handle rt e w)) in
  m' = m \/ (exists k v, m' = set k v m) \/ (exists k, m' = delete k m).
Proof.
  destruct e as [sock|c message|c|c| | |]; cbn zeta; cbn [handle].
  - right; left. eexists _, _. apply connection_store.
  - rewrite on_message_store.
    destruct (JSON_parse rt message) as [data|]; [|now left].
    rewrite router_store.
    destruct (get (conn_id c) (activeSessions w)) as [s|]; [|now left].
    destruct (get_property data "type") as [|type]; [now left|].
    destruct (strict_eq_string type "start_listening"); [right; left; eauto|].
    destruct (strict_eq_string type "stop_listening"); [right; left; eauto|].
    now left.
  - right; right. now exists (conn_id c).
  - right; right. now exists (conn_id c).
  - left. apply preserves_api_health.
  - left. apply preserves_api_sessions.
  - left. apply preserves_on_SIGTERM.
Qed.

(** No id occurs twice in the store of a reachable state. *)
Lemma reachable_NoDup rt w : reachable rt w -> NoDup (keys (activeSessions w)).
Proof.
  induction 1 as [|w e R IH].
  - constructor.
  - destruct (handle_store rt e w) as [E|[(k & v & E)|(k & E)]]; rewrite E.
    + exact IH.
    + now apply NoDup_keys_set.
    + now apply NoDup_keys_delete.
Qed.

(** ** The listener around the router *)

(** The [catch] block of the message listener. *)
Lemma catch_block_run rt sock w :
  (emit (console_error "Error parsing WebSocket message:") ;;
   send rt sock (JObj [("type", JStr "error");
                       ("message", JStr "Invalid message format")])) w =
  ((if send_throws rt (calls w) then Thrown SendError else Returned tt),
   {| activeSessions := activeSessions w;
      calls := 1 + calls w;
      trace := (trace w ++
                [console_error "Error parsing WebSocket message:";
                 ws_send sock
                   (JObj [("type", JStr "error");
                          ("message", JStr "Invalid message format")])
                   (negb (send_throws rt (calls w)))])%list |}).
Proof.
  unfold bind at 1, emit at 1. cbv beta iota. rewrite send_run. cbn.
  now rewrite <- app_assoc.
Qed.

Lemma on_message_undecodable rt c message w :
  JSON_parse rt message = None ->
  on_message rt c message w =
  ((if send_throws rt (calls w) then Thrown SendError else Returned tt),
   {| activeSessions := activeSessions w;
      calls := 1 + calls w;
      trace := (trace w ++
                [console_error "Error parsing WebSocket message:";
                 ws_send (conn_ws c)
                   (JObj [("type", JStr "error");
                          ("message", JStr "Invalid message format")])
                   (negb (send_throws rt (calls w)))])%list |}).
Proof.
  intros U. unfold on_message, try_catch, parse. unfold bind at 1. rewrite U.
  unfold throw at 1. cbv beta iota. apply catch_block_run.
Qed.

Lemma on_message_decoded rt c message data w :
  JSON_parse rt message = Some data ->
  on_message rt c message w =
  match handleWebSocketMessage rt (conn_id c) data w with
  | (Returned a, w') => (Returned a, w')
  | (Thrown _, w') =>
      ((if send_throws rt (calls w') then Thrown SendError else Returned tt),
       {| activeSessions := activeSessions w';
          calls := 1 + calls w';
          trace := (trace w' ++
                    [console_error "Error parsing WebSocket message:";
                     ws_send (conn_ws c)
                       (JObj [("type", JStr "error");
                              ("message", JStr "Invalid message format")])
                       (negb (send_throws rt (calls w')))])%list |})
  end.
Proof.
  intros D. unfold on_message, try_catch, parse. unfold bind at 1. rewrite D.
  unfold ret at 1. cbv beta iota.
  destruct (handleWebSocketMessage rt (conn_id c) data w) as [[a|e] w'].
  - reflexivity.
  - apply catch_block_run.
Qed.

(** ** The broadcast message and its addressees *)

Lemma eligible_spec sender m id s :
  In (id, s) (eligible sender m) <->
  In (id, s) m /\ id <> sender /\ isActive s = true.
Proof.
  unfold eligible. rewrite filter_In. cbn.
  rewrite andb_true_iff, negb_true_iff, String.eqb_neq. tauto.
Qed.

Lemma eligible_set_sender sender (v : Session) m :
  eligible sender (set sender v m) = eligible sender m.
Proof.
  unfold eligible. induction m as [|[k s] rest IH]; cbn.
  - now rewrite String.eqb_refl.
  - destruct (String.eqb k sender) eqn:E; cbn; rewrite E; cbn.
    + reflexivity.
    + now rewrite IH.
Qed.

Lemma deliveries_message rt msg k recipients to m ok :
  In (ws_send to m ok) (deliveries rt msg k recipients) -> m = msg.
Proof.
  revert k. induction recipients as [|[id s] rest IH]; intros k; cbn; [tauto|].
  destruct (send_throws rt k); cbn; intros [E|I]; try (now injection E); eauto.
  destruct I as [E|I]; [discriminate | eauto].
Qed.

Lemma broadcast_message_sessionId sender now payload :
  get_property (broadcast_message sender now payload) "sessionId" =
  inr (Some (JStr sender)).
Proof. cbn. now rewrite get_set_same. Qed.

Lemma broadcast_message_serverTimestamp sender now payload :
  get_property (broadcast_message sender now payload) "serverTimestamp" =
  inr (Some (JNum now)).
Proof. cbn. rewrite get_set_other by discriminate. now rewrite get_set_same. Qed.

Lemma broadcast_message_payload sender now payload k :
  k <> "sessionId" -> k <> "serverTimestamp" ->
  get_property (broadcast_message sender now payload) k = inr (get k (spread payload)).
Proof. intros A B. cbn. rewrite !get_set_other by congruence. reflexivity. Qed.

(** ** What an event does to one session *)

Lemma session_step rt sid e w :
  let m := activeSessions w in
  let m' := activeSessions (snd (handle rt e w)) in
  match input_of rt sid w e with
  | accept => exists s', get sid m' = Some s' /\ isActive s' = false
  | start_listening =>
      match get sid m with
      | Some s => exists s', get sid m' = Some s' /\ isActive s' = true /\ ws s' = ws s
      | None => get sid m' = None
      end
  | stop_listening =>
      match get sid m with
      | Some s => get sid m' = Some (set_isActive false s)
      | None => get sid m' = None
      end
  | drop => get sid m' = None
  | other => get sid m' = get sid m
  end.
Proof.
  cbn zeta. destruct e as [sock|c message|c|c| | |]; cbn [input_of].
  - rewrite connection_store.
    destruct (String.eqb_spec (random_token rt (calls w)) sid) as [<-|D].
    + rewrite get_set_same. eauto.
    + now rewrite get_set_other.
  - cbn [handle]. rewrite on_message_store, ?router_store. unfold message_type.
    destruct (JSON_parse rt message) as [data|];
      [|destruct (String.eqb (conn_id c) sid); reflexivity].
    rewrite router_store.
    destruct (get_property data "type") as [err|type];
      [destruct (get (conn_id c) (activeSessions w));
       destruct (String.eqb (conn_id c) sid); reflexivity|].
    destruct (String.eqb_spec (conn_id c) sid) as [<-|D].
    + destruct (get (conn_id c) (activeSessions w)) as [s|] eqn:P.
      * destruct (strict_eq_string type "start_listening").
        { rewrite get_set_same. eauto. }
        destruct (strict_eq_string type "stop_listening").
        { now rewrite get_set_same. }
        exact P.
      * destruct (strict_eq_string type "start_listening"); [exact P|].
        destruct (strict_eq_string type "stop_listening"); exact P.
    + destruct (get (conn_id c) (activeSessions w)) as [s|]; [|reflexivity].
      destruct (strict_eq_string type "start_listening");
        [now rewrite get_set_other|].
      destruct (strict_eq_string type "stop_listening");
        [now rewrite get_set_other|reflexivity].
  - cbn [handle]. rewrite on_close_run. cbn [snd activeSessions].
    destruct (String.eqb_spec (conn_id c) sid) as [<-|D].
    + apply get_delete_same.
    + now apply get_delete_other.
  - cbn [handle]. rewrite on_error_run. cbn [snd activeSessions].
    destruct (String.eqb_spec (conn_id c) sid) as [<-|D].
    + apply get_delete_same.
    + now apply get_delete_other.
  - cbn [handle]. now rewrite preserves_api_health.
  - cbn [handle]. now rewrite preserves_api_sessions.
  - cbn [handle]. now rewrite preserves_on_SIGTERM.
Qed.

(** ** The broadcaster *)

(** C1.  A broadcast from sender S that is in the store offers the message
    [{...payload, serverTimestamp: now, sessionId: S}] to exactly the
    sessions of the store, in store order, whose id differs from S and whose
    active flag is true, once each: never to S, never to an inactive
    session.  When S is not in the store the broadcast changes nothing.  A
    [subtitle_update] message handled for S is such a broadcast. *)
Theorem broadcast_addresses_other_active_sessions rt sender payload w :
  let r := broadcastSubtitle rt sender payload w in
  let msg := broadcast_message sender (clock rt (calls w)) payload in
  match get sender (activeSessions w) with
  | Some _ =>
      exists issued,
        trace (snd r) = (trace w ++ issued)%list /\
        sends_of issued =
          map (fun e => (ws (snd e), msg)) (eligible sender (activeSessions w))
  | None => r = (Returned tt, w)
  end
  /\ (forall id s,
        In (id, s) (eligible sender (activeSessions w)) <->
        In (id, s) (activeSessions w) /\ id <> sender /\ isActive s = true)
  /\ (forall fields,
        get "type" fields = Some (JStr "subtitle_update") ->
        handleWebSocketMessage rt sender (JObj fields) w =
        broadcastSubtitle rt sender (JObj fields) w).
Proof.
  cbn zeta. split; [|split].
  - destruct (get sender (activeSessions w)) as [s|] eqn:P.
    + rewrite (broadcastSubtitle_present rt sender payload w s P). cbn [snd trace].
      eexists. split; [reflexivity|]. apply sends_of_deliveries.
    + now apply broadcastSubtitle_absent.
  - intros id s. apply eligible_spec.
  - intros fields T. destruct (get sender (activeSessions w)) as [s|] eqn:P.
    + now apply (router_subtitle rt sender fields w s).
    + rewrite router_absent, broadcastSubtitle_absent; auto.
Qed.

(** C5.  When the listener of sender S handles a [subtitle_update], a
    [ws.send] that throws for one recipient is caught and logged inside the
    loop: the message is still offered to every eligible recipient, the
    store is left as it was, the listener returns normally (its own [catch]
    does not run, nothing is sent back to the sender) and no socket is
    closed, whichever sends fail. *)
Theorem broadcast_send_failure_is_contained rt c message fields w
  (D : JSON_parse rt message = Some (JObj fields))
  (T : get "type" fields = Some (JStr "subtitle_update")) :
  let sender := conn_id c in
  let msg := broadcast_message sender (clock rt (calls w)) (JObj fields) in
  let recipients :=
    match get sender (activeSessions w) with
    | Some _ => eligible sender (activeSessions w)
    | None => []
    end in
  let issued := deliveries rt msg (S (calls w)) recipients in
  let r := on_message rt c message w in
  fst r = Returned tt
  /\ activeSessions (snd r) = activeSessions w
  /\ trace (snd r) = (trace w ++ issued)%list
  /\ sends_of issued = map (fun e => (ws (snd e), msg)) recipients
  /\ forallb (fun e => negb (is_close e)) issued = true.
Proof.
  cbn zeta. rewrite (on_message_decoded rt c message (JObj fields) w D).
  split; [|split; [|split; [|split]]].
  4: apply sends_of_deliveries.
  4: apply deliveries_no_close.
  all: destruct (get (conn_id c) (activeSessions w)) as [s|] eqn:P.
  all: try rewrite (router_subtitle rt (conn_id c) fields w s P T).
  all: try rewrite (broadcastSubtitle_present rt (conn_id c) (JObj fields) w s P).
  all: try rewrite (router_absent rt (conn_id c) (JObj fields) w P).
  all: cbn; try reflexivity.
  now rewrite app_nil_r.
Qed.

(** C10.  Whatever the payload holds, also [sessionId] or
    [serverTimestamp] fields of its own, a broadcast from a sender in the
    store sends to each session it addresses one and the same message,
    which reads the sender's server-assigned id under [sessionId] and the
    server's clock under [serverTimestamp]; the other fields read as in the
    payload, and an object without repeated keys stays one. *)
Theorem broadcast_overrides_client_identity rt sender payload w :
  let now := clock rt (calls w) in
  let msg := broadcast_message sender now payload in
  let recipients :=
    match get sender (activeSessions w) with
    | Some _ => eligible sender (activeSessions w)
    | None => []
    end in
  (exists issued,
     trace (snd (broadcastSubtitle rt sender payload w)) = (trace w ++ issued)%list /\
     sends_of issued = map (fun e => (ws (snd e), msg)) recipients)
  /\ get_property msg "sessionId" = inr (Some (JStr sender))
  /\ get_property msg "serverTimestamp" = inr (Some (JNum now))
  /\ (forall k, k <> "sessionId" -> k <> "serverTimestamp" ->
        get_property msg k = inr (get k (spread payload)))
  /\ (NoDup (keys (spread payload)) ->
      exists fields, msg = JObj fields /\ NoDup (keys fields)).
Proof.
  cbn zeta. split; [|split; [|split; [|split]]].
  - destruct (get sender (activeSessions w)) as [s|] eqn:P.
    + rewrite (broadcastSubtitle_present rt sender payload w s P). cbn [snd trace].
      eexists. split; [reflexivity|]. apply sends_of_deliveries.
    + rewrite broadcastSubtitle_absent by assumption.
      exists []. split; [now rewrite app_nil_r | reflexivity].
  - apply broadcast_message_sessionId.
  - apply broadcast_message_serverTimestamp.
  - intros k. apply broadcast_message_payload.
  - intros N. eexists. split; [reflexivity|].
    now apply NoDup_keys_set, NoDup_keys_set.
Qed.

(** ** The router *)

(** C3.  For a session in the store, [start_listening] sets the active
    flag, sets the language to the one the payload gives, or to ["en-US"]
    when it gives none (the [language] field is absent, or holds [null],
    [false], [0] or the empty string, the values [||] passes over), sets
    the start time to the clock, leaves every other session alone, and
    answers on the session's socket with [listening_started] carrying a
    timestamp and the resolved language. *)
Theorem start_listening_activates_session rt sid fields w s
  (P : get sid (activeSessions w) = Some s)
  (T : get "type" fields = Some (JStr "start_listening")) :
  let given := get "language" fields in
  let resolved :=
    match given with
    | Some v => if truthy given then v else JStr "en-US"
    | None => JStr "en-US"
    end in
  let r := handleWebSocketMessage rt sid (JObj fields) w in
  get sid (activeSessions (snd r)) =
    Some {| ws := ws s; startTime := clock rt (calls w);
            language := resolved; isActive := true |}
  /\ (forall id, id <> sid ->
        get id (activeSessions (snd r)) = get id (activeSessions w))
  /\ trace (snd r) =
       (trace w ++
        [ws_send (ws s)
           (JObj [("type", JStr "listening_started");
                  ("timestamp", JNum (clock rt (1 + calls w)));
                  ("language", resolved)])
           (negb (send_throws rt (2 + calls w)))])%list
  /\ (given = None -> resolved = JStr "en-US")
  /\ (forall tag, tag <> "" -> given = Some (JStr tag) -> resolved = JStr tag).
Proof.
  cbn zeta. rewrite (router_start rt sid fields w s P T). cbn [snd activeSessions trace].
  split; [|split; [|split; [|split]]].
  - apply get_set_same.
  - intros id D. apply get_set_other. congruence.
  - reflexivity.
  - now intros ->.
  - intros tag D ->. cbn. now apply String.eqb_neq in D as ->.
Qed.

(** C4, as the code has it.  For a session in the store and a [ping] whose
    [timestamp] is the integer T, with T, the clock reading and their
    difference of magnitude at most 2^53 (where the subtraction of doubles
    is exact), the reply is a [pong] whose latency is now - T, [now] being
    the clock reading taken for it; the latency is non-negative exactly
    when T is not ahead of that reading. *)
Theorem ping_replies_with_latency rt sid fields w s T
  (P : get sid (activeSessions w) = Some s)
  (Ty : get "type" fields = Some (JStr "ping"))
  (N : get "timestamp" fields = Some (JNum T))
  (ST : safe_integer T = true)
  (SN : safe_integer (clock rt (1 + calls w)) = true)
  (SD : safe_integer (clock rt (1 + calls w) - T) = true) :
  let now := clock rt (1 + calls w) in
  let r := handleWebSocketMessage rt sid (JObj fields) w in
  trace (snd r) =
    (trace w ++
     [ws_send (ws s)
        (JObj [("type", JStr "pong");
               ("timestamp", JNum (clock rt (calls w)));
               ("latency", JNum (now - T))])
        (negb (send_throws rt (2 + calls w)))])%list
  /\ activeSessions (snd r) = activeSessions w
  /\ (0 <= now - T <-> T <= now)%Z.
Proof.
  cbn zeta.
  assert (C : ToNumber rt (get "timestamp" fields) = inr (Num T)) by now rewrite N.
  rewrite (router_ping rt sid fields w s (Num T) P Ty C). cbn [snd activeSessions trace].
  unfold number_sub. rewrite ST, SN, SD. cbn [andb json_of_number].
  repeat split; lia.
Qed.


(** ** The connection gateway *)

(** C8.  For a frame that does not decode, the listener logs the failure
    and answers on the connection's socket with an [error] message whose
    text is ["Invalid message format"]; it closes nothing, removes nothing
    and leaves every session as it was. *)
Theorem undecodable_frame_is_answered rt c message w
  (U : JSON_parse rt message = None) :
  let reply := JObj [("type", JStr "error"); ("message", JStr "Invalid message format")] in
  let r := on_message rt c message w in
  trace (snd r) =
    (trace w ++
     [console_error "Error parsing WebSocket message:";
      ws_send (conn_ws c) reply (negb (send_throws rt (calls w)))])%list
  /\ activeSessions (snd r) = activeSessions w
  /\ (send_throws rt (calls w) = false -> fst r = Returned tt).
Proof.
  cbn zeta. rewrite (on_message_undecodable rt c message w U). cbn [snd fst].
  repeat split. now intros ->.
Qed.

(** C6.  Removing an id that is not in the store, by the close listener or
    by the error listener, returns normally and leaves the store as it was;
    so a second close or error event after the first changes nothing. *)
Theorem remove_is_idempotent c w :
  (get (conn_id c) (activeSessions w) = None ->
     fst (on_close c w) = Returned tt
     /\ activeSessions (snd (on_close c w)) = activeSessions w
     /\ fst (on_error c w) = Returned tt
     /\ activeSessions (snd (on_error c w)) = activeSessions w)
  /\ (forall first second : conn -> M unit,
        (first = on_close \/ first = on_error) ->
        (second = on_close \/ second = on_error) ->
        let w1 := snd (first c w) in
        fst (second c w1) = Returned tt
        /\ activeSessions (snd (second c w1)) = activeSessions w1).
Proof.
  split.
  - intros A. rewrite on_close_run, on_error_run. cbn [fst snd activeSessions].
    rewrite (delete_absent _ _ A). auto.
  - intros first second [-> | ->] [-> | ->]; cbn zeta;
      rewrite ?on_close_run, ?on_error_run; cbn [fst snd activeSessions];
      rewrite delete_delete; auto.
Qed.

(** C9.  In every reachable state the health query answers with an
    [activeSessions] field equal to the number of entries of the session
    store, whatever their active flags; no id occurs twice among them, so
    that is the number of sessions present. *)
Theorem health_reports_store_size rt w (R : reachable rt w) :
  trace (snd (api_health rt w)) =
    (trace w ++
     [res_json
        (JObj [("status", JStr "healthy");
               ("timestamp", JNum (clock rt (calls w)));
               ("activeSessions", JNum (Z.of_nat (length (activeSessions w))));
               ("uptime", uptime rt (1 + calls w))])])%list
  /\ NoDup (keys (activeSessions w))
  /\ length (keys (activeSessions w)) = length (activeSessions w).
Proof.
  split; [reflexivity|]. split.
  - now apply (reachable_NoDup rt).
  - apply length_keys.
Qed.

(** ** The per-session state machine *)

Lemma with_flag_absent sid b w :
  get sid (activeSessions w) = None -> with_flag sid b w = w.
Proof. intros A. unfold with_flag. rewrite A. now destruct w. Qed.

(** The router treats [ping] and [subtitle_update] from session [sid] alike
    whatever the active flag of [sid] is. *)
Lemma router_ignores_own_flag rt sid fields w b :
  get "type" fields = Some (JStr "ping") \/
  get "type" fields = Some (JStr "subtitle_update") ->
  let r := handleWebSocketMessage rt sid (JObj fields) w in
  let rb := handleWebSocketMessage rt sid (JObj fields) (with_flag sid b w) in
  fst rb = fst r
  /\ trace (snd rb) = trace (snd r)
  /\ calls (snd rb) = calls (snd r)
  /\ activeSessions (snd rb) = activeSessions (with_flag sid b w)
  /\ activeSessions (snd r) = activeSessions w.
Proof.
  intros T. cbn zeta.
  destruct (get sid (activeSessions w)) as [s|] eqn:P.
  2: { rewrite (with_flag_absent sid b w P), router_absent by assumption.
       repeat split. }
  assert (Pb : get sid (activeSessions (with_flag sid b w)) = Some (set_isActive b s)).
  { unfold with_flag. rewrite P. cbn. apply get_set_same. }
  destruct T as [T|T].
  - destruct (ToNumber rt (get "timestamp" fields)) as [e|n] eqn:N.
    + rewrite (router_ping_throws rt sid fields _ _ e Pb T N),
        (router_ping_throws rt sid fields _ _ e P T N).
      cbn. repeat split.
    + rewrite (router_ping rt sid fields _ _ n Pb T N),
        (router_ping rt sid fields _ _ n P T N).
      cbn. repeat split.
  - rewrite (router_subtitle rt sid fields _ _ Pb T), (router_subtitle rt sid fields _ _ P T).
    rewrite (broadcastSubtitle_present rt sid (JObj fields) _ _ Pb),
      (broadcastSubtitle_present rt sid (JObj fields) _ _ P).
    cbn [fst snd trace calls activeSessions].
    assert (E : eligible sid (activeSessions (with_flag sid b w)) =
                eligible sid (activeSessions w)).
    { unfold with_flag. rewrite P. cbn. apply eligible_set_sender. }
    rewrite E. repeat split.
Qed.

Lemma input_accept rt sid w e :
  input_of rt sid w e = accept ->
  exists sock, e = connection sock /\ random_token rt (calls w) = sid.
Proof.
  destruct e as [sock|c message|c|c| | |]; cbn; try discriminate.
  - destruct (String.eqb_spec (random_token rt (calls w)) sid); [eauto|discriminate].
  - destruct (String.eqb (conn_id c) sid); [|discriminate].
    destruct (message_type rt message) as [type|]; [|discriminate].
    destruct (strict_eq_string type "start_listening"); [discriminate|].
    destruct (strict_eq_string type "stop_listening"); discriminate.
  - destruct (String.eqb (conn_id c) sid); discriminate.
  - destruct (String.eqb (conn_id c) sid); discriminate.
Qed.

(** C2.  As long as the token drawn for a new connection is not the id of a
    session in the store, every event moves every session as the machine of
    the specification says: a session enters the store inactive when its
    connection is accepted, [start_listening] on it makes it active,
    [stop_listening] inactive, close and error remove it, and once removed
    no message, close or error of that connection brings it back.  An event
    that is none of these for the session leaves its entry untouched, and
    [ping] and [subtitle_update] are handled alike whether the session is
    active or not. *)
Theorem session_follows_state_machine rt sid e w (F : fresh_token rt e w) :
  let w' := snd (handle rt e w) in
  phase_of sid w' = spec_transition (phase_of sid w) (input_of rt sid w e)
  /\ (input_of rt sid w e = other ->
        get sid (activeSessions w') = get sid (activeSessions w))
  /\ (forall i, spec_transition Removed i = Removed \/ i = accept)
  /\ (forall fields b,
        get "type" fields = Some (JStr "ping") \/
        get "type" fields = Some (JStr "subtitle_update") ->
        let r := handleWebSocketMessage rt sid (JObj fields) w in
        let rb := handleWebSocketMessage rt sid (JObj fields) (with_flag sid b w) in
        fst rb = fst r
        /\ trace (snd rb) = trace (snd r)
        /\ calls (snd rb) = calls (snd r)
        /\ activeSessions (snd rb) = activeSessions (with_flag sid b w)
        /\ activeSessions (snd r) = activeSessions w).
Proof.
  cbn zeta. pose proof (session_step rt sid e w) as S. cbn zeta in S.
  split; [|split; [|split]].
  - unfold phase_of.
    destruct (input_of rt sid w e) eqn:I.
    + destruct S as (s' & -> & ->).
      assert (A : get sid (activeSessions w) = None).
      { destruct (input_accept rt sid w e I) as (sock & -> & <-). exact F. }
      now rewrite A.
    + destruct (get sid (activeSessions w)) as [s|].
      * destruct S as (s' & -> & -> & _). now destruct (isActive s).
      * now rewrite S.
    + destruct (get sid (activeSessions w)) as [s|]; rewrite S; cbn.
      * now destruct (isActive s).
      * reflexivity.
    + rewrite S. now destruct (get sid (activeSessions w)) as [[? ? ? []]|].
    + rewrite S. now destruct (get sid (activeSessions w)) as [[? ? ? []]|].
  - intros I. now rewrite I in S.
  - intros []; cbn; auto.
  - intros fields b T. now apply router_ignores_own_flag.
Qed.

(** ** Concrete runs *)

(** Session A broadcasts in a store of four: B and D are addressed, A
    itself and the inactive C are not. *)
Lemma broadcast_addresses_other_active_sessions_witness :
  let payload := JObj [("type", JStr "subtitle_update"); ("text", JStr "bonjour")] in
  let msg := JObj [("type", JStr "subtitle_update"); ("text", JStr "bonjour");
                   ("serverTimestamp", JNum 1007); ("sessionId", JStr "A")] in
  exists issued,
    trace (snd (broadcastSubtitle Sample.rt "A" payload Sample.four)) = issued /\
    sends_of issued = [(2, msg); (4, msg)].
Proof.
  exact (proj1 (broadcast_addresses_other_active_sessions Sample.rt "A"
                  (JObj [("type", JStr "subtitle_update"); ("text", JStr "bonjour")])
                  Sample.four)).
Defined.

(** The send to B throws; D is served all the same and the listener of A
    returns. *)
Lemma broadcast_send_failure_is_contained_witness :
  let message := Sample.frame_of_type "subtitle_update" in
  let msg := JObj [("type", JStr "subtitle_update");
                   ("serverTimestamp", JNum 1007); ("sessionId", JStr "A")] in
  let r := on_message Sample.flaky Sample.connA message Sample.four in
  JSON_parse Sample.flaky message = Some (JObj [("type", JStr "subtitle_update")])
  /\ fst r = Returned tt
  /\ activeSessions (snd r) = activeSessions Sample.four
  /\ trace (snd r) =
       [ws_send 2 msg false; console_error "Error broadcasting to session B:";
        ws_send 4 msg true].
Proof.
  split; [reflexivity|].
  destruct (broadcast_send_failure_is_contained Sample.flaky Sample.connA
              (Sample.frame_of_type "subtitle_update")
              [("type", JStr "subtitle_update")] Sample.four eq_refl eq_refl)
    as (R & St & Tr & _).
  split; [exact R|]. split; [exact St|exact Tr].
Defined.

(** A payload that names session B as its origin is relayed to B and D
    under A's id and the server's clock. *)
Lemma broadcast_overrides_client_identity_witness :
  let payload := JObj [("type", JStr "subtitle_update"); ("sessionId", JStr "B");
                       ("serverTimestamp", JNum 1)] in
  let msg := JObj [("type", JStr "subtitle_update"); ("sessionId", JStr "A");
                   ("serverTimestamp", JNum 1007)] in
  (exists issued,
     trace (snd (broadcastSubtitle Sample.rt "A" payload Sample.four)) = issued /\
     sends_of issued = [(2, msg); (4, msg)])
  /\ get_property msg "sessionId" = inr (Some (JStr "A"))
  /\ get_property msg "serverTimestamp" = inr (Some (JNum 1007)).
Proof.
  destruct (broadcast_overrides_client_identity Sample.rt "A"
              (JObj [("type", JStr "subtitle_update"); ("sessionId", JStr "B");
                     ("serverTimestamp", JNum 1)]) Sample.four)
    as (Se & I & Ts & _).
  split; [exact Se|]. split; [exact I|exact Ts].
Defined.

(** [start_listening{language:"fr-FR"}] from the inactive session C. *)
Lemma start_listening_activates_session_witness :
  let fields := [("type", JStr "start_listening"); ("language", JStr "fr-FR")] in
  let r := handleWebSocketMessage Sample.rt "C" (JObj fields) Sample.three in
  get "C" (activeSessions Sample.three) = Some (Sample.session 3 false)
  /\ get "C" (activeSessions (snd r)) =
       Some {| ws := 3; startTime := 1007; language := JStr "fr-FR"; isActive := true |}
  /\ trace (snd r) =
       [ws_send 3
          (JObj [("type", JStr "listening_started"); ("timestamp", JNum 1008);
                 ("language", JStr "fr-FR")]) true].
Proof.
  split; [reflexivity|].
  destruct (start_listening_activates_session Sample.rt "C"
              [("type", JStr "start_listening"); ("language", JStr "fr-FR")]
              Sample.three (Sample.session 3 false) eq_refl eq_refl)
    as (St & _ & Tr & _).
  split; [exact St|exact Tr].
Defined.

(** [ping{timestamp: 900}] read at clock 1008. *)
Lemma ping_replies_with_latency_witness :
  let fields := [("type", JStr "ping"); ("timestamp", JNum 900)] in
  let r := handleWebSocketMessage Sample.rt "A" (JObj fields) Sample.three in
  get "A" (activeSessions Sample.three) = Some (Sample.session 1 true)
  /\ safe_integer 900 = true /\ safe_integer 1008 = true /\ safe_integer 108 = true
  /\ trace (snd r) =
       [ws_send 1
          (JObj [("type", JStr "pong"); ("timestamp", JNum 1007);
                 ("latency", JNum 108)]) true].
Proof.
  split; [reflexivity|]. split; [reflexivity|]. split; [reflexivity|].
  split; [reflexivity|].
  exact (proj1 (ping_replies_with_latency Sample.rt "A"
                  [("type", JStr "ping"); ("timestamp", JNum 900)]
                  Sample.three (Sample.session 1 true) 900 eq_refl eq_refl eq_refl
                  eq_refl eq_refl eq_refl)).
Defined.

(** C4 as the specification words it fails for a client whose clock is
    ahead of the server's: [ping{timestamp: 5000}] read at clock 1008 is
    answered with a negative latency. *)
Lemma ping_future_timestamp_counterexample :
  let fields := [("type", JStr "ping"); ("timestamp", JNum 5000)] in
  let r := handleWebSocketMessage Sample.rt "A" (JObj fields) Sample.three in
  get "A" (activeSessions Sample.three) = Some (Sample.session 1 true)
  /\ trace (snd r) =
       [ws_send 1
          (JObj [("type", JStr "pong"); ("timestamp", JNum 1007);
                 ("latency", JNum (-3992))]) true]
  /\ ~ (0 <= -3992)%Z.
Proof. cbn zeta. repeat split. lia. Qed.



(** A frame that is not JSON, on the connection of session A. *)
Lemma undecodable_frame_is_answered_witness :
  let r := on_message Sample.rt Sample.connA "not json" Sample.three in
  JSON_parse Sample.rt "not json" = None
  /\ trace (snd r) =
       [console_error "Error parsing WebSocket message:";
        ws_send 1 (JObj [("type", JStr "error");
                         ("message", JStr "Invalid message format")]) true]
  /\ activeSessions (snd r) = activeSessions Sample.three.
Proof.
  split; [reflexivity|].
  destruct (undecodable_frame_is_answered Sample.rt Sample.connA "not json"
              Sample.three eq_refl) as (Tr & St & _).
  split; [exact Tr|exact St].
Defined.

(** The connection of A is closed, then closed again. *)
Lemma remove_is_idempotent_witness :
  let w1 := snd (on_close Sample.connA Sample.three) in
  get "A" (activeSessions w1) = None
  /\ fst (on_close Sample.connA w1) = Returned tt
  /\ activeSessions (snd (on_close Sample.connA w1)) = activeSessions w1.
Proof.
  split; [reflexivity|].
  destruct (proj1 (remove_is_idempotent Sample.connA
                     (snd (on_close Sample.connA Sample.three))) eq_refl)
    as (R & St & _).
  split; [exact R|exact St].
Defined.

(** One session is connected and not active: the health query reports 1. *)
Lemma health_reports_store_size_witness :
  reachable Sample.rt Sample.one_connected
  /\ length (filter (fun e => isActive (snd e)) (activeSessions Sample.one_connected)) = 0
  /\ trace (snd (api_health Sample.rt Sample.one_connected)) =
       (trace Sample.one_connected ++
        [res_json (JObj [("status", JStr "healthy"); ("timestamp", JNum 1004);
                         ("activeSessions", JNum 1); ("uptime", JNum 5)])])%list.
Proof.
  assert (R : reachable Sample.rt Sample.one_connected)
    by exact (reachable_handle Sample.rt initial (connection 1) (reachable_initial Sample.rt)).
  split; [exact R|]. split; [reflexivity|].
  exact (proj1 (health_reports_store_size Sample.rt Sample.one_connected R)).
Defined.

(** C2 as the specification words it fails when the token drawn for a new
    connection is the id of a session in the store: the event is the
    acceptance of a connection, no [stop_listening] and no close, and it
    takes the active session A to inactive, which the machine has no edge
    for. *)
Lemma token_collision_replaces_session :
  ~ fresh_token Sample.colliding (connection 9) Sample.three
  /\ input_of Sample.colliding "A" Sample.three (connection 9) = accept
  /\ phase_of "A" Sample.three = Active
  /\ phase_of "A" (snd (handle Sample.colliding (connection 9) Sample.three)) = Connected
  /\ spec_transition Active accept <> Connected
  /\ get "A" (activeSessions (snd (handle Sample.colliding (connection 9) Sample.three))) =
       Some {| ws := 9; startTime := 1008; language := JStr "en-US"; isActive := false |}.
Proof. repeat split; cbn; discriminate. Qed.

(** A connection is accepted in a store of three: the token drawn is new,
    and the session it names goes from absent to connected and inactive. *)
Lemma session_follows_state_machine_witness :
  fresh_token Sample.rt (connection 9) Sample.three
  /\ random_token Sample.rt (calls Sample.three) = "id7"
  /\ phase_of "id7" Sample.three = Removed
  /\ phase_of "id7" (snd (handle Sample.rt (connection 9) Sample.three)) = Connected.
Proof.
  split; [reflexivity|]. split; [reflexivity|]. split; [reflexivity|].
  exact (proj1 (session_follows_state_machine Sample.rt "id7" (connection 9)
                  Sample.three eq_refl)).
Defined.

(** ** Further facts about the store *)

Section StoreFacts.
Context {V : Type}.
Implicit Types (k : string) (m : list (string * V)).

Lemma get_In k m (v : V) : get k m = Some v -> In (k, v) m.
Proof.
  induction m as [|[k' v'] rest IH]; cbn; [discriminate|].
  destruct (String.eqb_spec k' k) as [->|D].
  - intros E. injection E as ->. now left.
  - intros E. right. now apply IH.
Qed.

Lemma get_absent_keys k m : get k m = None <-> ~ In k (keys m).
Proof.
  induction m as [|[k' v'] rest IH]; cbn; [tauto|].
  destruct (String.eqb_spec k' k) as [->|D].
  - split; [discriminate | tauto].
  - rewrite IH. tauto.
Qed.

Lemma In_set_inv k (v : V) m id x :
  In (id, x) (set k v m) -> (id = k /\ x = v) \/ In (id, x) m.
Proof.
  induction m as [|[k' v'] rest IH]; cbn.
  - intros [E|[]]. injection E as <- <-. now left.
  - destruct (String.eqb_spec k' k) as [->|D]; cbn.
    + intros [E|I]; [injection E as <- <-; now left | tauto].
    + intros [E|I]; [tauto|]. destruct (IH I); tauto.
Qed.

Lemma In_set_same k (v : V) m : In (k, v) (set k v m).
Proof.
  induction m as [|[k' v'] rest IH]; cbn; [now left|].
  destruct (String.eqb_spec k' k) as [->|D]; cbn; tauto.
Qed.

Lemma In_delete_inv k m id x : In (id, x) (delete k m) -> In (id, x) m.
Proof.
  induction m as [|[k' v'] rest IH]; cbn; [tauto|].
  destruct (String.eqb k' k); cbn; tauto.
Qed.

Lemma set_absent k (v : V) m : get k m = None -> set k v m = (m ++ [(k, v)])%list.
Proof.
  induction m as [|[k' v'] rest IH]; cbn; [reflexivity|].
  destruct (String.eqb k' k); [discriminate|].
  intros A. now rewrite IH.
Qed.

Lemma keys_set_present k (v s : V) m : get k m = Some s -> keys (set k v m) = keys m.
Proof.
  induction m as [|[k' v'] rest IH]; cbn; [discriminate|].
  destruct (String.eqb k' k); cbn; [reflexivity|].
  intros E. f_equal. now apply IH.
Qed.

Lemma NoDup_keys_unique k (a b : V) m :
  NoDup (keys m) -> In (k, a) m -> In (k, b) m -> a = b.
Proof.
  induction m as [|[k' v'] rest IH]; cbn; [tauto|].
  intros N. inversion N as [|? ? Fresh N']; subst.
  intros [E1|I1] [E2|I2].
  - congruence.
  - injection E1 as -> ->. exfalso. apply Fresh. now apply (in_map fst) in I2.
  - injection E2 as -> ->. exfalso. apply Fresh. now apply (in_map fst) in I1.
  - now apply IH.
Qed.

Lemma length_delete_present k (s : V) m :
  NoDup (keys m) -> get k m = Some s -> S (length (delete k m)) = length m.
Proof.
  induction m as [|[k' v'] rest IH]; cbn; [discriminate|].
  intros N. inversion N as [|? ? Fresh N']; subst.
  destruct (String.eqb_spec k' k) as [->|D].
  - intros _. now rewrite delete_absent by now apply get_absent_keys.
  - intros E. cbn. f_equal. now apply IH.
Qed.
End StoreFacts.

Lemma sockets_set_present k (v s : Session) m :
  get k m = Some s -> ws v = ws s -> sockets (set k v m) = sockets m.
Proof.
  unfold sockets. induction m as [|[k' v'] rest IH]; cbn; [discriminate|].
  destruct (String.eqb k' k); cbn.
  - intros E W. injection E as ->. now rewrite W.
  - intros E W. f_equal. now apply IH.
Qed.

(** ** More of the router *)

(** X1.  For a session in the store, [stop_listening] clears the active
    flag and nothing else of the session: socket, start time and language
    stay as they were, every other session is left alone, no session is
    added or removed, and the session's socket is sent [listening_stopped]
    with the clock reading.  It does so whether or not the session was
    active. *)
Theorem stop_listening_deactivates_session rt sid fields w s
  (P : get sid (activeSessions w) = Some s)
  (T : get "type" fields = Some (JStr "stop_listening")) :
  let r := handleWebSocketMessage rt sid (JObj fields) w in
  get sid (activeSessions (snd r)) =
    Some {| ws := ws s; startTime := startTime s;
            language := language s; isActive := false |}
  /\ (forall id, id <> sid ->
        get id (activeSessions (snd r)) = get id (activeSessions w))
  /\ keys (activeSessions (snd r)) = keys (activeSessions w)
  /\ trace (snd r) =
       (trace w ++
        [ws_send (ws s)
           (JObj [("type", JStr "listening_stopped");
                  ("timestamp", JNum (clock rt (calls w)))])
           (negb (send_throws rt (1 + calls w)))])%list.
Proof.
  cbn zeta. rewrite (router_stop rt sid fields w s P T). cbn [snd activeSessions trace].
  split; [|split; [|split]].
  - apply get_set_same.
  - intros id D. apply get_set_other. congruence.
  - now apply keys_set_present with (s := s).
  - reflexivity.
Qed.

(** X11.  How the [ping] case converts the timestamp, for a session in the
    store.  With no [timestamp] field the difference is not a number and
    the [pong] carries the latency [null]; a [timestamp] of [null] counts
    as 0, so the latency is the clock reading itself (a reading of
    magnitude at most 2^53); a [timestamp] that is an object with a
    [toString] property of its own makes the subtraction throw, after both
    clock readings and before any send.  None of them changes the store. *)
Theorem ping_timestamp_is_converted rt sid fields w s
  (P : get sid (activeSessions w) = Some s)
  (T : get "type" fields = Some (JStr "ping")) :
  let r := handleWebSocketMessage rt sid (JObj fields) w in
  let pong latency :=
    ws_send (ws s)
      (JObj [("type", JStr "pong");
             ("timestamp", JNum (clock rt (calls w)));
             ("latency", latency)])
      (negb (send_throws rt (2 + calls w))) in
  activeSessions (snd r) = activeSessions w
  /\ (get "timestamp" fields = None ->
        trace (snd r) = (trace w ++ [pong JNull])%list)
  /\ (get "timestamp" fields = Some JNull ->
      safe_integer (clock rt (1 + calls w)) = true ->
        trace (snd r) = (trace w ++ [pong (JNum (clock rt (1 + calls w)))])%list)
  /\ (forall own method,
        get "timestamp" fields = Some (JObj own) ->
        get "toString" own = Some method ->
        r = (Thrown TypeError,
             {| activeSessions := activeSessions w;
                calls := 2 + calls w;
                trace := trace w |})).
Proof.
  cbn zeta. split; [|split; [|split]].
  - rewrite router_store, P. cbn. now rewrite T.
  - intros N.
    rewrite (router_ping rt sid fields w s NaN P T) by now rewrite N.
    reflexivity.
  - intros N SN.
    rewrite (router_ping rt sid fields w s (Num 0) P T) by now rewrite N.
    cbn [snd trace]. unfold number_sub. rewrite Z.sub_0_r, SN. reflexivity.
  - intros own method N M.
    apply (router_ping_throws rt sid fields w s TypeError P T).
    rewrite N. cbn. now rewrite M.
Qed.

(** ** More of the gateway *)

(** X9.  Accepting a connection stores, under the token drawn, a session
    on the new socket that is inactive, speaks ["en-US"] and started at the
    clock reading; every other id reads as before.  The socket is sent
    [session_init] with that token and a later clock reading.  When that
    send throws, the exception leaves the callback and the session is in
    the store all the same. *)
Theorem connection_registers_inactive_session rt sock w :
  let id := random_token rt (calls w) in
  let r := on_connection rt sock w in
  get id (activeSessions (snd r)) =
    Some {| ws := sock; startTime := clock rt (1 + calls w);
            language := JStr "en-US"; isActive := false |}
  /\ (forall k, k <> id ->
        get k (activeSessions (snd r)) = get k (activeSessions w))
  /\ trace (snd r) =
       (trace w ++
        [console_log ("New subtitle session connected: " ++ id);
         ws_send sock
           (JObj [("type", JStr "session_init");
                  ("sessionId", JStr id);
                  ("timestamp", JNum (clock rt (2 + calls w)))])
           (negb (send_throws rt (3 + calls w)))])%list
  /\ fst r =
       (if send_throws rt (3 + calls w) then Thrown SendError
        else Returned {| conn_ws := sock; conn_id := id |}).
Proof.
  cbn zeta. rewrite on_connection_store.
  split; [apply get_set_same|]. split.
  { intros k D. apply get_set_other. congruence. }
  unfold on_connection, generateSessionId, Date_now, Map_set, modify.
  unfold bind, tick, emit, ret, send, throw. cbn.
  destruct (send_throws rt (S (S (S (calls w))))); cbn;
    rewrite <- app_assoc; split; reflexivity.
Qed.

(** X2.  Once the close or the error listener of a connection has run, a
    frame that decodes is dropped on that connection whatever it holds: no
    reply, no log line, no change of state. *)
Theorem closed_connection_is_ignored rt c message data w
  (D : JSON_parse rt message = Some data) :
  let closed := snd (on_close c w) in
  let errored := snd (on_error c w) in
  on_message rt c message closed = (Returned tt, closed)
  /\ on_message rt c message errored = (Returned tt, errored).
Proof.
  cbn zeta. split.
  - rewrite (on_message_decoded rt c message data _ D), router_absent; [reflexivity|].
    rewrite on_close_run. apply get_delete_same.
  - rewrite (on_message_decoded rt c message data _ D), router_absent; [reflexivity|].
    rewrite on_error_run. apply get_delete_same.
Qed.

(** X3.  A frame that decodes to [null], received for a session in the
    store, is answered like a frame that does not decode: reading its
    [type] throws inside the [try] block, so the listener logs and sends
    ["Invalid message format"] on the connection's socket and leaves the
    store as it was. *)
Theorem null_frame_is_answered_as_invalid rt c message w s
  (D : JSON_parse rt message = Some JNull)
  (P : get (conn_id c) (activeSessions w) = Some s) :
  on_message rt c message w =
  ((if send_throws rt (calls w) then Thrown SendError else Returned tt),
   {| activeSessions := activeSessions w;
      calls := 1 + calls w;
      trace := (trace w ++
                [console_error "Error parsing WebSocket message:";
                 ws_send (conn_ws c) invalid_format
                   (negb (send_throws rt (calls w)))])%list |}).
Proof.
  rewrite (on_message_decoded rt c message JNull w D).
  now rewrite (router_no_type rt (conn_id c) JNull w s TypeError P eq_refl).
Qed.

Lemma router_calls rt sid data w :
  calls w <= calls (snd (handleWebSocketMessage rt sid data w)).
Proof.
  destruct (get sid (activeSessions w)) as [s|] eqn:P.
  2: { now rewrite router_absent. }
  destruct (get_property data "type") as [e|type] eqn:T.
  { now rewrite (router_no_type rt sid data w s e). }
  destruct (strict_eq_string type "start_listening") eqn:K1.
  { apply strict_eq_string_true in K1. subst type.
    destruct (get_type_object _ _ T) as (fields & -> & T').
    rewrite (router_start rt sid fields w s) by assumption. cbn. lia. }
  destruct (strict_eq_string type "stop_listening") eqn:K2.
  { apply strict_eq_string_true in K2. subst type.
    destruct (get_type_object _ _ T) as (fields & -> & T').
    rewrite (router_stop rt sid fields w s) by assumption. cbn. lia. }
  destruct (strict_eq_string type "subtitle_update") eqn:K3.
  { apply strict_eq_string_true in K3. subst type.
    destruct (get_type_object _ _ T) as (fields & -> & T').
    rewrite (router_subtitle rt sid fields w s) by assumption.
    rewrite (broadcastSubtitle_present rt sid (JObj fields) w s P). cbn. lia. }
  destruct (strict_eq_string type "ping") eqn:K4.
  { apply strict_eq_string_true in K4. subst type.
    destruct (get_type_object _ _ T) as (fields & -> & T').
    destruct (ToNumber rt (get "timestamp" fields)) as [e|n] eqn:N.
    - rewrite (router_ping_throws rt sid fields w s e) by assumption. cbn. lia.
    - rewrite (router_ping rt sid fields w s n) by assumption. cbn. lia. }
  assert (K : known_type type = false)
    by (unfold known_type; now rewrite K1, K2, K3, K4).
  destruct (template rt type) as [e|text] eqn:X.
  - now rewrite (router_unknown_throws rt sid data w s type e).
  - rewrite (router_unknown rt sid data w s type text) by assumption. cbn. lia.
Qed.

(** X4.  The only exception that leaves the message listener is the one
    thrown by its own last resort, the [ws.send] of the
    ["Invalid message format"] reply in the [catch] block: a frame that does
    not decode, a [type] that cannot be read or a send that throws in the
    router all end in that block.  So when no [ws.send] throws, the listener
    returns normally on every frame. *)
Theorem listener_lets_only_reply_failure_escape rt c message w :
  let r := on_message rt c message w in
  (forall e, fst r = Thrown e ->
     e = SendError /\
     exists before,
       trace (snd r) = (before ++ [ws_send (conn_ws c) invalid_format false])%list)
  /\ ((forall k, calls w <= k -> send_throws rt k = false) -> fst r = Returned tt).
Proof.
  cbn zeta. destruct (JSON_parse rt message) as [data|] eqn:D.
  - rewrite (on_message_decoded rt c message data w D).
    pose proof (router_calls rt (conn_id c) data w) as L.
    destruct (handleWebSocketMessage rt (conn_id c) data w) as [[[]|e'] w'];
      cbn [snd fst] in *.
    + split; [discriminate | reflexivity].
    + split.
      * intros e. destruct (send_throws rt (calls w')); cbn; [|discriminate].
        intros E. injection E as <-. split; [reflexivity|].
        exists (trace w' ++ [console_error "Error parsing WebSocket message:"])%list.
        now rewrite <- app_assoc.
      * intros Q. now rewrite (Q (calls w') L).
  - rewrite (on_message_undecodable rt c message w D). cbn [snd fst]. split.
    + intros e. destruct (send_throws rt (calls w)); cbn; [|discriminate].
      intros E. injection E as <-. split; [reflexivity|].
      exists (trace w ++ [console_error "Error parsing WebSocket message:"])%list.
      now rewrite <- app_assoc.
    + intros Q. now rewrite (Q (calls w) (le_n _)).
Qed.

Lemma keys_sockets m : map fst (sockets m) = keys m.
Proof. unfold sockets, keys. rewrite map_map. reflexivity. Qed.

(** X5.  Handling a frame never adds a session, never removes one and never
    moves a session to another socket: the ids in the store, their order
    and the socket of each are the same after the message listener has run
    as before, whatever the frame. *)
Theorem messages_keep_sessions_and_sockets rt c message w :
  let w' := snd (on_message rt c message w) in
  sockets (activeSessions w') = sockets (activeSessions w)
  /\ keys (activeSessions w') = keys (activeSessions w)
  /\ length (activeSessions w') = length (activeSessions w).
Proof.
  cbn zeta.
  assert (E : sockets (activeSessions (snd (on_message rt c message w))) =
              sockets (activeSessions w)).
  { rewrite on_message_store.
    destruct (JSON_parse rt message) as [data|]; [|reflexivity].
    rewrite router_store.
    destruct (get (conn_id c) (activeSessions w)) as [s|] eqn:P; [|reflexivity].
    destruct (get_property data "type") as [|type]; [reflexivity|].
    destruct (strict_eq_string type "start_listening").
    { now apply sockets_set_present with (s := s). }
    destruct (strict_eq_string type "stop_listening").
    { now apply sockets_set_present with (s := s). }
    reflexivity. }
  split; [exact E|]. split.
  - now rewrite <- !keys_sockets, E.
  - rewrite <- (length_map (fun e => (fst e, ws (snd e)))).
    fold (sockets (activeSessions (snd (on_message rt c message w)))).
    rewrite E. apply length_map.
Qed.

(** ** Invariants of the sessions in the store *)

Section SessionInvariant.
Variable rt : runtime.
Variable Q : Session -> Prop.
Hypothesis Q_accept :
  forall sock t, Q {| ws := sock; startTime := t; language := JStr "en-US"; isActive := false |}.
Hypothesis Q_start :
  forall s t given,
    Q s ->
    Q {| ws := ws s; startTime := t;
         language := or_default given (JStr "en-US"); isActive := true |}.
Hypothesis Q_stop : forall s, Q s -> Q (set_isActive false s).

(** A property of sessions that the three writes of the server establish
    or keep holds of every stored session after any event. *)
Lemma handle_keeps_sessions e w :
  (forall id s, In (id, s) (activeSessions w) -> Q s) ->
  forall id s, In (id, s) (activeSessions (snd (handle rt e w))) -> Q s.
Proof.
  intros H id s. destruct e as [sock|c message|c|c| | |];
    [rewrite connection_store | cbn [handle] ..].
  - intros I.
    apply In_set_inv in I as [[_ ->]|I]; [apply Q_accept | eauto].
  - rewrite on_message_store.
    destruct (JSON_parse rt message) as [data|]; [|apply H].
    rewrite router_store.
    destruct (get (conn_id c) (activeSessions w)) as [s0|] eqn:P; [|apply H].
    apply get_In in P.
    destruct (get_property data "type") as [|type]; [apply H|].
    destruct (strict_eq_string type "start_listening").
    { intros I. apply In_set_inv in I as [[_ ->]|I]; [|eauto].
      apply (Q_start s0). eauto. }
    destruct (strict_eq_string type "stop_listening").
    { intros I. apply In_set_inv in I as [[_ ->]|I]; [|eauto].
      apply Q_stop. eauto. }
    apply H.
  - rewrite on_close_run. cbn [snd activeSessions]. intros I.
    apply In_delete_inv in I. eauto.
  - rewrite on_error_run. cbn [snd activeSessions]. intros I.
    apply In_delete_inv in I. eauto.
  - rewrite preserves_api_health. apply H.
  - rewrite preserves_api_sessions. apply H.
  - rewrite preserves_on_SIGTERM. apply H.
Qed.

Lemma reachable_sessions w :
  reachable rt w -> forall id s, In (id, s) (activeSessions w) -> Q s.
Proof.
  induction 1 as [|w e R IH].
  - intros id s [].
  - now apply handle_keeps_sessions.
Qed.
End SessionInvariant.

Lemma or_default_truthy given d :
  truthy (Some d) = true -> truthy (Some (or_default given d)) = true.
Proof.
  intros D. destruct given as [v|]; cbn [or_default]; [|exact D].
  destruct (truthy (Some v)) eqn:E; assumption.
Qed.

(** X6.  In every reachable state every session has a language that is
    truthy: it starts as ["en-US"], [start_listening] replaces it by a
    truthy value of the payload or by ["en-US"] again, and nothing else
    writes it.  In particular it is never [null] and never the empty
    string. *)
Theorem session_language_is_never_falsy rt w (R : reachable rt w) :
  forall id s,
    In (id, s) (activeSessions w) ->
    truthy (Some (language s)) = true
    /\ language s <> JNull /\ language s <> JStr "".
Proof.
  intros id s I.
  assert (T : truthy (Some (language s)) = true).
  { revert id s I.
    apply (reachable_sessions rt (fun s => truthy (Some (language s)) = true)); auto.
    intros s t given _. cbn [language]. now apply or_default_truthy. }
  split; [exact T|]. split; intros E; rewrite E in T; discriminate.
Qed.

(** ** The sessions listing *)

Lemma listing_run rt m w :
  mapM (fun entry : string * Session =>
          let (id, session) := entry in
          now <- Date_now rt ;;
          ret (JObj [("id", JStr id);
                     ("startTime", JNum (startTime session));
                     ("language", language session);
                     ("isActive", JBool (isActive session));
                     ("uptime", JNum (now - startTime session))])) m w =
  (Returned (listing rt (calls w) m),
   {| activeSessions := activeSessions w;
      calls := calls w + length m;
      trace := trace w |}).
Proof.
  revert w. induction m as [|[id s] rest IH]; intros w.
  - cbn. unfold ret. destruct w; cbn. now rewrite Nat.add_0_r.
  - cbn [mapM listing length]. unfold bind at 1. unfold bind at 1.
    unfold Date_now, tick, bind at 1, ret at 1 2. cbv beta iota.
    unfold bind at 1. rewrite IH. cbn. unfold ret, session_entry.
    do 2 f_equal. lia.
Qed.

Lemma length_listing rt k m : length (listing rt k m) = length m.
Proof.
  revert k. induction m as [|[id s] rest IH]; intros k; cbn; [reflexivity|].
  now rewrite IH.
Qed.

Lemma filter_all {A} (f : A -> bool) l :
  length (filter f l) = length l <-> forall x, In x l -> f x = true.
Proof.
  induction l as [|a rest IH]; cbn; [tauto|].
  pose proof (filter_length_le f rest) as L.
  destruct (f a) eqn:E; cbn.
  - split.
    + intros H x [<-|I]; [exact E|]. apply IH; [lia | exact I].
    + intros H. f_equal. apply IH. auto.
  - split; [lia|]. intros H. rewrite (H a) in E by now left. discriminate.
Qed.

(** X7.  The sessions query answers with one object per session, in store
    order, each with the session's id, start time, language and active flag
    and an uptime that is a clock reading of its own minus the start time;
    [total] is the number of sessions in the store and [active] the number
    of them whose flag is set, so [active] never exceeds [total] and equals
    it exactly when every session is active.  The query leaves the store as
    it was. *)
Theorem sessions_listing_reports_store rt w :
  let m := activeSessions w in
  api_sessions rt w =
    (Returned tt,
     {| activeSessions := m;
        calls := calls w + length m;
        trace := (trace w ++
                  [res_json
                     (JObj [("sessions", JArr (listing rt (calls w) m));
                            ("total", JNum (Z.of_nat (length m)));
                            ("active", JNum (Z.of_nat (active_count m)))])])%list |})
  /\ length (listing rt (calls w) m) = length m
  /\ active_count m <= length m
  /\ (active_count m = length m <->
      forall id s, In (id, s) m -> isActive s = true).
Proof.
  cbn zeta. split; [|split; [|split]].
  - unfold api_sessions, sessions. unfold bind at 1. cbv beta iota.
    unfold bind at 1. rewrite listing_run. unfold emit. cbn.
    now rewrite length_listing.
  - apply length_listing.
  - apply filter_length_le.
  - unfold active_count. rewrite filter_all. split.
    + intros H id s I. exact (H (id, s) I).
    + intros H [id s] I. exact (H id s I).
Qed.

(** ** Graceful shutdown *)

Lemma shutdown_loop rt m w :
  forEach
    (fun session sessionId =>
       try_catch
         (send rt (ws session)
            (JObj [("type", JStr "server_shutdown");
                   ("message", JStr "Server is shutting down")]) ;;
          emit (ws_close (ws session)))
         (fun error => emit (console_error ("Error closing session " ++ sessionId ++ ":"))))
    m w =
  (Returned tt,
   {| activeSessions := activeSessions w;
      calls := calls w + length m;
      trace := (trace w ++ shutdown_effects rt (calls w) m)%list |}).
Proof.
  revert w. induction m as [|[id s] rest IH]; intros w.
  - cbn. unfold ret. destruct w; cbn. now rewrite Nat.add_0_r, app_nil_r.
  - cbn [forEach shutdown_effects length]. unfold bind at 1.
    unfold try_catch. unfold bind at 1. rewrite send_run.
    destruct (send_throws rt (calls w)) eqn:F; cbn [negb].
    + unfold emit; cbn. rewrite IH; cbn.
      f_equal. f_equal; [lia|]. now rewrite <- !app_assoc.
    + unfold emit; cbn. rewrite IH; cbn.
      f_equal. f_equal; [lia|]. now rewrite <- !app_assoc.
Qed.

Lemma sends_of_shutdown rt k m :
  sends_of (shutdown_effects rt k m) = map (fun e => (ws (snd e), shutdown_notice)) m.
Proof.
  revert k. induction m as [|[id s] rest IH]; intros k; cbn; [reflexivity|].
  destruct (send_throws rt k); cbn; now rewrite IH.
Qed.

Lemma closes_of_shutdown rt k m :
  closes_of (shutdown_effects rt k m) = delivered_of (shutdown_effects rt k m).
Proof.
  revert k. induction m as [|[id s] rest IH]; intros k; cbn; [reflexivity|].
  destruct (send_throws rt k); cbn; now rewrite IH.
Qed.

Lemma closes_of_shutdown_all rt k m :
  (forall j, send_throws rt j = false) ->
  closes_of (shutdown_effects rt k m) = map (fun e => ws (snd e)) m.
Proof.
  intros Q. revert k. induction m as [|[id s] rest IH]; intros k; cbn; [reflexivity|].
  rewrite Q. cbn. now rewrite IH.
Qed.

(** X8.  On SIGTERM every session of the store, in store order, is sent
    the [server_shutdown] notice, and its socket is closed right after when
    the send went through; when the send throws, the failure is logged, that
    socket is not closed and the loop goes on with the next session.  The
    handler then calls [server.close], returns normally whichever sends
    failed, and leaves the sessions in the store. *)
Theorem shutdown_notifies_then_closes rt w :
  let m := activeSessions w in
  let issued := shutdown_effects rt (calls w) m in
  on_SIGTERM rt w =
    (Returned tt,
     {| activeSessions := m;
        calls := calls w + length m;
        trace := (trace w ++
                  console_log "Received SIGTERM, shutting down gracefully..."
                  :: issued ++ [server_close])%list |})
  /\ sends_of issued = map (fun e => (ws (snd e), shutdown_notice)) m
  /\ closes_of issued = delivered_of issued
  /\ ((forall k, send_throws rt k = false) ->
      closes_of issued = map (fun e => ws (snd e)) m).
Proof.
  cbn zeta. split; [|split; [|split]].
  - unfold on_SIGTERM. unfold bind at 1. unfold emit at 1. cbv beta iota.
    unfold bind at 1. unfold Map_forEach, sessions. unfold bind at 1.
    cbv beta iota. cbn [activeSessions]. rewrite shutdown_loop.
    unfold emit. cbn. now rewrite <- !app_assoc.
  - apply sends_of_shutdown.
  - apply closes_of_shutdown.
  - apply closes_of_shutdown_all.
Qed.

(** ** Who receives broadcasts *)

Lemma eligible_app sender m1 m2 :
  eligible sender (m1 ++ m2) = (eligible sender m1 ++ eligible sender m2)%list.
Proof. apply filter_app. Qed.

(** X10.  When the token drawn for a new connection is not in use, the new
    session is appended after the sessions already in the store and is
    addressed by no broadcast: for every sender the sessions a broadcast
    addresses are the same after the connection as before. *)
Theorem new_connection_receives_no_broadcast rt sock w
  (F : get (random_token rt (calls w)) (activeSessions w) = None) :
  let id := random_token rt (calls w) in
  let w' := snd (handle rt (connection sock) w) in
  keys (activeSessions w') = (keys (activeSessions w) ++ [id])%list
  /\ (forall sender,
        eligible sender (activeSessions w') = eligible sender (activeSessions w)).
Proof.
  cbn zeta. rewrite connection_store, (set_absent _ _ _ F). split.
  - unfold keys. now rewrite map_app.
  - intros sender. rewrite eligible_app. cbn.
    rewrite andb_false_r. apply app_nil_r.
Qed.

(** X12.  In every reachable state the size of the store moves with the
    connections: accepting a connection whose token is not in use adds
    one, accepting one whose token is in use replaces that entry and adds
    none, and the close or the error listener of a connection whose
    session is in the store takes exactly one away. *)
Theorem store_size_follows_connections rt w (R : reachable rt w) :
  let m := activeSessions w in
  let size (e : event) := length (activeSessions (snd (handle rt e w))) in
  (forall sock,
     get (random_token rt (calls w)) m = None -> size (connection sock) = S (length m))
  /\ (forall sock s,
        get (random_token rt (calls w)) m = Some s -> size (connection sock) = length m)
  /\ (forall c s,
        get (conn_id c) m = Some s ->
        S (size (ws_closed c)) = length m /\ S (size (ws_errored c)) = length m).
Proof.
  cbn zeta. pose proof (reachable_NoDup rt w R) as N. split; [|split].
  - intros sock F. rewrite connection_store, (set_absent _ _ _ F), length_app.
    cbn. lia.
  - intros sock s P. rewrite connection_store.
    rewrite <- !length_keys. now rewrite (keys_set_present _ _ s).
  - intros c s P. cbn [handle]. rewrite on_close_run, on_error_run.
    cbn [snd activeSessions]. split; now apply length_delete_present with (s := s).
Qed.

(** X13.  In a store without repeated ids, [start_listening] from a session
    puts it among the sessions that a broadcast from any other sender
    addresses, on the socket it had, and [stop_listening] takes it out of
    them. *)
Theorem listening_gates_broadcast_reception rt sid fields w s sender
  (N : NoDup (keys (activeSessions w)))
  (P : get sid (activeSessions w) = Some s)
  (D : sender <> sid) :
  let after := activeSessions (snd (handleWebSocketMessage rt sid (JObj fields) w)) in
  (get "type" fields = Some (JStr "start_listening") ->
     exists s', In (sid, s') (eligible sender after) /\ ws s' = ws s)
  /\ (get "type" fields = Some (JStr "stop_listening") ->
      forall s', ~ In (sid, s') (eligible sender after)).
Proof.
  cbn zeta. split; intros T.
  - rewrite (router_start rt sid fields w s P T). cbn [snd activeSessions].
    eexists. split;
      [apply eligible_spec; split; [apply In_set_same|]; split; [congruence|reflexivity]|].
    reflexivity.
  - rewrite (router_stop rt sid fields w s P T). cbn [snd activeSessions].
    intros s' I. apply eligible_spec in I as (I & _ & A).
    assert (E : s' = set_isActive false s).
    { eapply NoDup_keys_unique; [|exact I|apply In_set_same].
      now apply NoDup_keys_set. }
    subst s'. discriminate.
Qed.

(** ** More concrete runs *)

(** The active session A stops listening. *)
Lemma stop_listening_deactivates_session_witness :
  let r := handleWebSocketMessage Sample.rt "A"
             (JObj [("type", JStr "stop_listening")]) Sample.three in
  get "A" (activeSessions Sample.three) = Some (Sample.session 1 true)
  /\ get "A" (activeSessions (snd r)) = Some (Sample.session 1 false)
  /\ trace (snd r) =
       [ws_send 1 (JObj [("type", JStr "listening_stopped");
                         ("timestamp", JNum 1007)]) true].
Proof.
  split; [reflexivity|].
  destruct (stop_listening_deactivates_session Sample.rt "A"
              [("type", JStr "stop_listening")] Sample.three
              (Sample.session 1 true) eq_refl eq_refl) as (St & _ & _ & Tr).
  split; [exact St|exact Tr].
Defined.

(** After the connection of A was closed, a frame of unknown type on it
    gets no answer. *)
Lemma closed_connection_is_ignored_witness :
  let closed := snd (on_close Sample.connA Sample.three) in
  JSON_parse Sample.rt (Sample.frame_of_type "foo") = Some (JObj [("type", JStr "foo")])
  /\ on_message Sample.rt Sample.connA (Sample.frame_of_type "foo") closed =
     (Returned tt, closed).
Proof.
  split; [reflexivity|].
  exact (proj1 (closed_connection_is_ignored Sample.rt Sample.connA
                  (Sample.frame_of_type "foo") (JObj [("type", JStr "foo")])
                  Sample.three eq_refl)).
Defined.

(** The frame [null] on the connection of A. *)
Lemma null_frame_is_answered_as_invalid_witness :
  JSON_parse Sample.rt "null" = Some JNull
  /\ on_message Sample.rt Sample.connA "null" Sample.three =
     (Returned tt,
      {| activeSessions := activeSessions Sample.three;
         calls := 8;
         trace := [console_error "Error parsing WebSocket message:";
                   ws_send 1 invalid_format true] |}).
Proof.
  split; [reflexivity|].
  exact (null_frame_is_answered_as_invalid Sample.rt Sample.connA "null"
           Sample.three (Sample.session 1 true) eq_refl eq_refl).
Defined.

(** A frame that is not JSON on a socket whose send throws: the error that
    leaves the listener is the one of the reply. *)
Lemma listener_lets_only_reply_failure_escape_witness :
  let r := on_message Sample.flaky Sample.connA "not json" initial in
  fst r = Thrown SendError
  /\ exists before, trace (snd r) = (before ++ [ws_send 1 invalid_format false])%list.
Proof.
  split; [reflexivity|].
  exact (proj2 (proj1 (listener_lets_only_reply_failure_escape Sample.flaky
                         Sample.connA "not json" initial) SendError eq_refl)).
Defined.

(** The session of the first connection speaks ["en-US"]. *)
Lemma session_language_is_never_falsy_witness :
  let s := {| ws := 1; startTime := 1001; language := JStr "en-US"; isActive := false |} in
  reachable Sample.rt Sample.one_connected
  /\ In ("id0", s) (activeSessions Sample.one_connected)
  /\ truthy (Some (language s)) = true.
Proof.
  assert (R : reachable Sample.rt Sample.one_connected)
    by exact (reachable_handle Sample.rt initial (connection 1) (reachable_initial Sample.rt)).
  split; [exact R|]. split; [now left|].
  exact (proj1 (session_language_is_never_falsy Sample.rt Sample.one_connected R
                  "id0" _ (or_introl eq_refl))).
Defined.

(** A fourth connection joins A, B and C. *)
Lemma new_connection_receives_no_broadcast_witness :
  let w' := snd (handle Sample.rt (connection 9) Sample.three) in
  get "id7" (activeSessions Sample.three) = None
  /\ keys (activeSessions w') = ["A"; "B"; "C"; "id7"]
  /\ eligible "A" (activeSessions w') = [("B", Sample.session 2 true)].
Proof.
  split; [reflexivity|].
  destruct (new_connection_receives_no_broadcast Sample.rt 9 Sample.three eq_refl)
    as (K & E).
  split; [exact K|exact (E "A")].
Defined.

(** [ping{}] from A. *)
Lemma ping_timestamp_is_converted_witness :
  let r := handleWebSocketMessage Sample.rt "A" (JObj [("type", JStr "ping")])
             Sample.three in
  get "A" (activeSessions Sample.three) = Some (Sample.session 1 true)
  /\ get "timestamp" [("type", JStr "ping")] = None
  /\ trace (snd r) =
       [ws_send 1 (JObj [("type", JStr "pong"); ("timestamp", JNum 1007);
                         ("latency", JNull)]) true].
Proof.
  split; [reflexivity|]. split; [reflexivity|].
  exact (proj1 (proj2 (ping_timestamp_is_converted Sample.rt "A"
                         [("type", JStr "ping")] Sample.three
                         (Sample.session 1 true) eq_refl eq_refl)) eq_refl).
Defined.

(** The one connected session is closed: the store is empty again. *)
Lemma store_size_follows_connections_witness :
  let c := {| conn_ws := 1; conn_id := "id0" |} in
  reachable Sample.rt Sample.one_connected
  /\ length (activeSessions Sample.one_connected) = 1
  /\ S (length (activeSessions (snd (handle Sample.rt (ws_closed c) Sample.one_connected)))) = 1.
Proof.
  assert (R : reachable Sample.rt Sample.one_connected)
    by exact (reachable_handle Sample.rt initial (connection 1) (reachable_initial Sample.rt)).
  split; [exact R|]. split; [reflexivity|].
  exact (proj1 (proj2 (proj2 (store_size_follows_connections Sample.rt
                                Sample.one_connected R))
                  {| conn_ws := 1; conn_id := "id0" |} _ eq_refl)).
Defined.

(** The inactive session C starts listening and is then addressed by the
    broadcasts of A. *)
Lemma listening_gates_broadcast_reception_witness :
  let after :=
    activeSessions
      (snd (handleWebSocketMessage Sample.rt "C"
              (JObj [("type", JStr "start_listening")]) Sample.three)) in
  NoDup (keys (activeSessions Sample.three))
  /\ eligible "A" (activeSessions Sample.three) = [("B", Sample.session 2 true)]
  /\ exists s', In ("C", s') (eligible "A" after) /\ ws s' = 3.
Proof.
  assert (N : NoDup (keys (activeSessions Sample.three))).
  { cbn. repeat constructor; cbn; intuition discriminate. }
  split; [exact N|]. split; [reflexivity|].
  exact (proj1 (listening_gates_broadcast_reception Sample.rt "C"
                  [("type", JStr "start_listening")] Sample.three
                  (Sample.session 3 false) "A" N eq_refl ltac:(discriminate))
           eq_refl).
Defined.
